(** * shopping.py: loader, splitter, evaluator and reporter

    A shallow embedding of [shopping.py].  The script is a linear pipeline over
    three libraries (pandas, scikit-learn, numpy); the calls it makes into them
    are modelled at the level of the values they hand back to the script:

    - [pd.read_csv] is the boundary with the file system: a run is given the
      [DataFrame] it returns (or the exception it raises);
    - [DataFrame.replace], [iloc], [to_json(orient='split')] and [json.loads]
      are functions on that table, with Python's [==] between a cell and a
      dictionary key and the dtype pandas holds each column in;
    - [train_test_split] is a function of the permutation drawn by the random
      generator;
    - [confusion_matrix] and the numpy division are functions on integers and
      IEEE-754 doubles (Rocq's primitive floats);
    - the fitted classifier is an oracle of the run. *)

From Stdlib Require Import Floats Uint63 QArith Qround Ascii String.
From stdpp Require Import base option list gmap strings pretty.

Open Scope string_scope.
Open Scope list_scope.
Open Scope Z_scope.

(** ** Exceptions and fallible computations *)

Inductive exn :=
  | ValueError
  | IndexError
  | TypeError
  | FileNotFoundError
  | ParserError.

Inductive result (A : Type) :=
  | Ok (a : A)
  | Raise (e : exn).
Arguments Ok {A} a.
Arguments Raise {A} e.

#[global] Instance result_ret : MRet result := @Ok.
#[global] Instance result_bind : MBind result := λ A B k m,
  match m with
  | Ok a => k a
  | Raise e => Raise e
  end.

Definition raises {A} (m : result A) : Prop :=
  match m with
  | Ok _ => False
  | Raise _ => True
  end.

(** ** Values

    The objects that travel through the loader: the scalars of a pandas column
    and what [json.loads] builds from their JSON form. *)

Inductive value :=
  | VInt (z : Z)
  | VFloat (f : float)
  | VStr (s : string)
  | VBool (b : bool)
  | VNone.

(** A table as [read_csv] returns it: the header and the rows in file order.
    Every row of a [DataFrame] has one cell per column. *)
Record DataFrame := {
  columns : list string;
  data : list (list value);
}.

Definition well_formed (df : DataFrame) : Prop :=
  Forall (λ row, length row = length (columns df)) (data df).

(** The dtype of a column.  [read_csv] gives a column the narrowest dtype
    that holds all its cells, so the dtype is read off the cells: a column of
    integers is [int64], a column of doubles [float64], a column of booleans
    [bool], and a column of strings, or one that mixes kinds of cells, holds
    Python objects. *)
Inductive dtype :=
  | dtype_bool
  | dtype_int64
  | dtype_float64
  | dtype_object.

Definition is_bool (v : value) : bool :=
  match v with
  | VBool _ => true
  | _ => false
  end.

Definition is_int (v : value) : bool :=
  match v with
  | VInt _ => true
  | _ => false
  end.

Definition is_float (v : value) : bool :=
  match v with
  | VFloat _ => true
  | _ => false
  end.

Definition infer_dtype (cells : list value) : dtype :=
  if forallb is_int cells then dtype_int64
  else if forallb is_float cells then dtype_float64
  else if forallb is_bool cells then dtype_bool
  else dtype_object.

(** The cells of the column at position [j], top to bottom. *)
Definition column_cells (df : DataFrame) (j : nat) : list value :=
  omap (λ row : list value, row !! j) (data df).

Definition dtype_of (df : DataFrame) (j : nat) : dtype :=
  infer_dtype (column_cells df j).

(** ** Python's [==]

    Python compares booleans, integers and doubles by the number they stand
    for ([True == 1 == 1.0], [False == 0 == 0.0 == -0.0]), strings by their
    characters, and nothing else equals a string or [None]. *)

(** The integer a double is equal to, if it is equal to one. *)
Definition float_integer (f : float) : option Z :=
  match Prim2SF f with
  | S754_zero _ => Some 0
  | S754_finite s m e =>
      let magnitude :=
        if decide (0 ≤ e) then Some (Z.pos m * 2 ^ e)
        else if decide (Z.pos m mod 2 ^ (- e) = 0)
             then Some (Z.pos m / 2 ^ (- e))
             else None in
      (λ z, if (s : bool) then - z else z) <$> magnitude
  | _ => None
  end.

(** A number as a comparison sees it: an integer, whichever of the three
    types holds it, or a double that is no integer. *)
Inductive number :=
  | Integer (z : Z)
  | Fraction (f : float).

Definition number_of (v : value) : option number :=
  match v with
  | VBool b => Some (Integer (Z.b2z b))
  | VInt z => Some (Integer z)
  | VFloat f => Some (from_option Integer (Fraction f) (float_integer f))
  | _ => None
  end.

Definition py_eq (a b : value) : bool :=
  match a, b with
  | VStr s, VStr t => bool_decide (s = t)
  | VNone, VNone => true
  | _, _ =>
      match number_of a, number_of b with
      | Some (Integer x), Some (Integer y) => bool_decide (x = y)
      | Some (Fraction x), Some (Fraction y) => (x =? y)%float
      | _, _ => false
      end
  end.

(** ** transform_df *)

(** The inner dictionaries of [mapping]: two are keyed by strings, two by
    booleans. *)
Inductive table :=
  | StrTable (t : gmap string Z)
  | BoolTable (t : gmap bool Z).

Definition month_table : gmap string Z :=
  {[ "Jan" := 0; "Feb" := 1; "Mar" := 2;
     "Apr" := 3; "May" := 4; "June" := 5;
     "Jul" := 6; "Aug" := 7; "Sep" := 8;
     "Oct" := 9; "Nov" := 10; "Dec" := 11 ]}.

Definition visitor_table : gmap string Z :=
  {[ "Returning_Visitor" := 1;
     "New_Visitor" := 0;
     "Other" := 0 ]}.

Definition bool_table : gmap bool Z :=
  {[ true := 1; false := 0 ]}.

Definition mapping : gmap string table :=
  {[ "Month" := StrTable month_table;
     "VisitorType" := StrTable visitor_table;
     "Weekend" := BoolTable bool_table;
     "Revenue" := BoolTable bool_table ]}.

(** The entry of a table for a cell: that of the key the cell is equal to,
    as [==] has it.  Only a string equals a string key; [True] is equalled by
    [True], 1 and 1.0, and [False] by [False], 0, 0.0 and -0.0. *)
Definition table_lookup (t : table) (v : value) : option Z :=
  match t with
  | StrTable m =>
      match v with
      | VStr s => m !! s
      | _ => None
      end
  | BoolTable m =>
      if py_eq v (VBool true) then m !! true
      else if py_eq v (VBool false) then m !! false
      else None
  end.

Definition replace_value (t : table) (v : value) : value :=
  match table_lookup t v with
  | Some z => VInt z
  | None => v
  end.

(** The replacement on one cell of a column named [c] whose dtype holds the
    keys of the column's dictionary: columns without an entry in [mapping] are
    not touched. *)
Definition replace_in (c : string) (v : value) : value :=
  match mapping !! c with
  | Some t => replace_value t v
  | None => v
  end.

(** Before it compares, pandas drops the keys that the dtype of the column
    cannot hold: an [int64] or [float64] column holds neither a string nor a
    boolean, a [bool] column holds no string, a column of objects holds
    anything. *)
Definition can_hold_keys (d : dtype) (t : table) : bool :=
  match d, t with
  | dtype_object, _ => true
  | dtype_bool, BoolTable _ => true
  | _, _ => false
  end.

(** [df.replace(mapping)] on one cell of a column named [c] of dtype [d]. *)
Definition replace_cell (d : dtype) (c : string) (v : value) : value :=
  match mapping !! c with
  | Some t => if can_hold_keys d t then replace_value t v else v
  | None => v
  end.

(** The cell at position [j] of a row of [df], replaced. *)
Definition replace_at (df : DataFrame) (j : nat) (v : value) : value :=
  match columns df !! j with
  | Some c => replace_cell (dtype_of df j) c v
  | None => v
  end.

(** [df.replace(mapping)]: every cell is replaced in its place, and the
    codes stay the Python integers of the dictionaries.  The silent downcast
    that pandas releases before 3.0 apply to a replaced column of objects,
    which makes doubles of the codes when a double (a missing cell, say) is
    left beside them, is not modelled. *)
Definition transform_df (df : DataFrame) : DataFrame :=
  {| columns := columns df;
     data := (λ row : list value, imap (replace_at df) row) <$> data df |}.

(** ** dataframe_to_list_of_lists *)

(** What a run takes from outside the script. *)
Record World := {
  (** [pd.read_csv(filename)] *)
  read_csv : string → result DataFrame;
  (** a finite double after [to_json] (which keeps 10 decimal places) and
      [json.loads] *)
  json_double : float → float;
  (** [rng.permutation(n)] of the split *)
  rng_permutation : nat → list nat;
  (** [KNeighborsClassifier(n_neighbors=1).fit(X, y).predict(X_test)] *)
  knn_predict : list (list value) → list value → list (list value) →
                result (list Z);
}.

(** One scalar through [to_json] and [json.loads]: integers, strings and
    booleans come back as they are, a finite double comes back a double, and
    NaN and the infinities are written as [null]. *)
Definition json_scalar (w : World) (v : value) : value :=
  match v with
  | VFloat f => if is_finite f then VFloat (json_double w f) else VNone
  | _ => v
  end.

(** On a DataFrame, [json.loads(df.to_json(orient='split'))['data']] is the
    list of rows; a table without columns has no data, however many rows its
    index counts. *)
Definition dataframe_to_list_of_lists (w : World) (df : DataFrame)
  : list (list value) :=
  match columns df with
  | [] => []
  | _ :: _ => (λ row : list value, json_scalar w <$> row) <$> data df
  end.

(** On a Series the same expression is the flat list of its values. *)
Definition series_to_list (w : World) (s : list value) : list value :=
  json_scalar w <$> s.

(** ** load_data *)

(** [df.iloc[:, :-1]] *)
Definition iloc_all_but_last (df : DataFrame) : DataFrame :=
  let n := pred (length (columns df)) in
  {| columns := take n (columns df);
     data := take n <$> data df |}.

(** [df.iloc[:, -1]]: the last column as a Series; a table without columns
    has none. *)
Definition iloc_last (df : DataFrame) : result (list value) :=
  match length (columns df) with
  | O => Raise IndexError
  | S n => Ok ((λ row, default (VFloat nan) (row !! n)) <$> data df)
  end.

Definition load_data (w : World) (filename : string)
  : result (list (list value) * list value) :=
  df ← read_csv w filename;
  let df_transformed := transform_df df in
  let X := iloc_all_but_last df_transformed in
  y ← iloc_last df_transformed;
  let evidence := dataframe_to_list_of_lists w X in
  let labels := series_to_list w y in
  Ok (evidence, labels).

Definition header : list string :=
  ["Administrative"; "Administrative_Duration"; "Informational";
   "Informational_Duration"; "ProductRelated"; "ProductRelated_Duration";
   "BounceRates"; "ExitRates"; "PageValues"; "SpecialDay"; "Month";
   "OperatingSystems"; "Browser"; "Region"; "TrafficType"; "VisitorType";
   "Weekend"; "Revenue"].


(** ** train_test_split *)

(** The double nearest 0.4 exceeds it by 0.4 * 2^-54, too little to move the
    ceiling of [test_size * n_samples] for any row count below 2^50, so the
    fraction is kept exact. *)
Definition TEST_SIZE : Q := 0.4.

Definition getitem {A} (l : list A) (i : nat) : result A :=
  match l !! i with
  | Some x => Ok x
  | None => Raise IndexError
  end.

(** [_safe_indexing] on a Python list: [[X[idx] for idx in indices]] *)
Fixpoint safe_indexing {A} (X : list A) (indices : list nat)
  : result (list A) :=
  match indices with
  | [] => Ok []
  | idx :: indices' =>
      x ← getitem X idx;
      xs ← safe_indexing X indices';
      Ok (x :: xs)
  end.

(** [n_test = ceil(test_size * n_samples)] *)
Definition n_test_of (n_samples : nat) : nat :=
  Z.to_nat (Qceiling (TEST_SIZE * inject_Z (Z.of_nat n_samples))).

(** [train_test_split(X, y, test_size=TEST_SIZE)]: the arrays must have one
    length, the training part must not come out empty, and the first
    [n_test] indices of the permutation go to the test part. *)
Definition train_test_split {A B} (w : World) (X : list A) (y : list B)
  : result (list A * list A * list B * list B) :=
  let n_samples := length X in
  if decide (length y = n_samples) then
    let n_test := n_test_of n_samples in
    let n_train := (n_samples - n_test)%nat in
    if decide (n_train = 0%nat) then Raise ValueError
    else
      let permutation := rng_permutation w n_samples in
      let ind_test := take n_test permutation in
      let ind_train := take n_train (drop n_test permutation) in
      X_train ← safe_indexing X ind_train;
      X_test ← safe_indexing X ind_test;
      y_train ← safe_indexing y ind_train;
      y_test ← safe_indexing y ind_test;
      Ok (X_train, X_test, y_train, y_test)
  else Raise ValueError.

(** ** evaluate *)

Fixpoint insert_label (x : Z) (l : list Z) : list Z :=
  match l with
  | [] => [x]
  | y :: l' =>
      if decide (x < y) then x :: l
      else if decide (x = y) then l
      else y :: insert_label x l'
  end.

(** [unique_labels(y_true, y_pred)]: the labels that occur, in increasing
    order. *)
Definition unique_labels (l : list Z) : list Z :=
  foldr insert_label [] l.

(** The number of samples with true label [a] and predicted label [b]. *)
Definition count_pairs (y_true y_pred : list Z) (a b : Z) : Z :=
  Z.of_nat (length (filter (λ p, p = (a, b)) (zip y_true y_pred))).

(** The labels numpy holds as [int64]. *)
Definition int64 (z : Z) : Prop := - 2 ^ 63 ≤ z < 2 ^ 63.

(** [confusion_matrix(y_true, y_pred)]: one row per true label and one column
    per predicted label, over the labels that occur in either list.  The two
    lists must have one length, hold at least one sample, and their labels
    must fit [int64]; otherwise the targets are refused with a ValueError. *)
Definition confusion_matrix (y_true y_pred : list Z)
  : result (list (list Z)) :=
  if decide (length y_true = length y_pred) then
    if decide (y_true = []) then Raise ValueError
    else if decide (Forall int64 (y_true ++ y_pred)) then
      let labels := unique_labels (y_true ++ y_pred) in
      Ok ((λ a, (λ b, count_pairs y_true y_pred a b) <$> labels) <$> labels)
    else Raise ValueError
  else Raise ValueError.

(** [cm[i, j]] *)
Definition cm_get (cm : list (list Z)) (i j : nat) : result Z :=
  row ← getitem cm i;
  getitem row j.

(** [a / b] on two numpy [int64]: both are converted to doubles and divided;
    0/0 is NaN (numpy warns and goes on). *)
Definition np_true_divide (a b : Z) : float :=
  (of_uint63 (Uint63.of_Z a) / of_uint63 (Uint63.of_Z b))%float.

Definition evaluate (labels predictions : list Z) : result (float * float) :=
  cm ← confusion_matrix labels predictions;
  TN ← cm_get cm 0 0;
  FN ← cm_get cm 1 0;
  FP ← cm_get cm 0 1;
  TP ← cm_get cm 1 1;
  let sensitivity := np_true_divide TP (TP + FN) in
  let specificty := np_true_divide TN (TN + FP) in
  Ok (sensitivity, specificty).

(** ** Formatting *)

(** [num / den] rounded to the nearest integer, ties to even. *)
Definition round_half_even (num den : Z) : Z :=
  let q := num / den in
  let r := num mod den in
  if decide (2 * r < den) then q
  else if decide (den < 2 * r) then q + 1
  else if Z.even q then q
  else q + 1.

Definition digit (z : Z) : ascii := pretty_N_char (Z.to_N z).


(** A number of hundredths in fixed notation with two decimals. *)
Definition fixed2 (sign : bool) (hundredths : Z) : string :=
  (if sign then "-" else "")
  +:+ pretty (Z.to_N (hundredths / 100))
  +:+ "."
  +:+ String (digit (hundredths mod 100 / 10))
        (String (digit (hundredths mod 10)) "").

(** [f"{x:.2f}"]: the exact value of the double, rounded to two decimals,
    ties to even; NaN and the infinities print by name. *)
Definition format_2f (x : float) : string :=
  match Prim2SF x with
  | S754_nan => "nan"
  | S754_infinity s => if s then "-inf" else "inf"
  | S754_zero s => fixed2 s 0
  | S754_finite s m e =>
      fixed2 s
        (if decide (0 ≤ e)%Z then Z.pos m * 100 * 2 ^ e
         else round_half_even (Z.pos m * 100) (2 ^ (- e)))
  end.

(** ** main *)

(** How a run ends. *)
Inductive outcome :=
  (** the script ran to its end: what it printed, exit status 0 *)
  | Completed (printed : list string)
  (** [sys.exit(message)]: the message goes to standard error, exit status 1 *)
  | SysExit (message : string)
  (** an uncaught exception: a traceback on standard error, exit status 1 *)
  | Uncaught (e : exn)
  (** the label column holds something other than integers; such a run is
      not covered *)
  | Unmodelled.

Definition stdout (o : outcome) : list string :=
  match o with
  | Completed printed => printed
  | _ => []
  end.

Definition exit_status (o : outcome) : Z :=
  match o with
  | Completed _ => 0
  | _ => 1
  end.

(** What the interpreter writes to standard error as the run ends (the
    warnings a library may issue on the way are not modelled). *)
Inductive diagnostic :=
  | Message (text : string)
  | Traceback (e : exn).

Definition stderr (o : outcome) : list diagnostic :=
  match o with
  | SysExit message => [Message message]
  | Uncaught e => [Traceback e]
  | _ => []
  end.

Definition label_of (v : value) : option Z :=
  match v with
  | VInt z => Some z
  | _ => None
  end.

(** [train_model(evidence, labels)]: the fitted model, as its [predict]. *)
Definition train_model (w : World) (evidence : list (list value))
    (labels : list value) : list (list value) → result (list Z) :=
  knn_predict w evidence labels.

(** [(y_test == predictions).sum()] and [(y_test != predictions).sum()] *)
Definition count_equal (y_test predictions : list Z) : Z :=
  Z.of_nat (length (filter (λ p, p.1 = p.2) (zip y_test predictions))).

Definition count_differ (y_test predictions : list Z) : Z :=
  Z.of_nat (length (filter (λ p, p.1 ≠ p.2) (zip y_test predictions))).

Definition report (y_test predictions : list Z)
    (sensitivity specificity : float) : list string :=
  [ "Correct: " +:+ pretty (count_equal y_test predictions);
    "Incorrect: " +:+ pretty (count_differ y_test predictions);
    "True Positive Rate: " +:+ format_2f (100 * sensitivity) +:+ "%";
    "True Negative Rate: " +:+ format_2f (100 * specificity) +:+ "%" ].

Definition of_result (r : result outcome) : outcome :=
  match r with
  | Ok o => o
  | Raise e => Uncaught e
  end.

(** [argv] is [sys.argv]: the script name followed by the arguments. *)
Definition main (w : World) (argv : list string) : outcome :=
  if decide (length argv ≠ 2%nat) then
    SysExit "Usage: python shopping.py data"
  else of_result (
    '(evidence, labels) ← load_data w (default "" (argv !! 1%nat));
    '(X_train, X_test, y_train, y_test) ←
      train_test_split w evidence labels;
    let model := train_model w X_train y_train in
    predictions ← model X_test;
    match mapM label_of y_test with
    | None => Ok Unmodelled
    | Some y_test =>
        '(sensitivity, specificity) ← evaluate y_test predictions;
        Ok (Completed (report y_test predictions sensitivity specificity))
    end).

(** ** Vocabulary of the loader's properties *)

(** A valid input file: the eighteen named columns, and eighteen fields in
    every row. *)
Definition valid_frame (df : DataFrame) : Prop :=
  columns df = header ∧ Forall (λ row, length row = 18%nat) (data df).

Definition month_abbreviations : list string :=
  ["Jan"; "Feb"; "Mar"; "Apr"; "May"; "Jun";
   "Jul"; "Aug"; "Sep"; "Oct"; "Nov"; "Dec"].

(** The month strings of the data: the abbreviations, with June in full. *)
Definition expected_months : list string :=
  <[5%nat := "June"]> month_abbreviations.

Definition visitor_types : list string :=
  ["Returning_Visitor"; "New_Visitor"; "Other"].

(** The keys of the four inner dictionaries of [mapping]. *)
Definition mapped_keys : list (string * list value) :=
  [("Month", VStr <$> expected_months);
   ("VisitorType", VStr <$> visitor_types);
   ("Weekend", [VBool true; VBool false]);
   ("Revenue", [VBool true; VBool false])].

(** What the cells of a column of valid data are, as [read_csv] types them. *)
Inductive kind := KInt | KFloat | KMonth | KVisitor | KBool.

Definition kinds : list kind :=
  [KInt; KFloat; KInt; KFloat; KInt; KFloat; KFloat; KFloat; KFloat; KFloat;
   KMonth; KInt; KInt; KInt; KInt; KVisitor; KBool; KBool].

Definition cell_ok (k : kind) (v : value) : Prop :=
  match k, v with
  | KInt, VInt _ => True
  | KFloat, VFloat f => is_finite f = true
  | KMonth, VStr s => s ∈ expected_months
  | KVisitor, VStr s => s ∈ visitor_types
  | KBool, VBool _ => True
  | _, _ => False
  end.

Definition typed_frame (df : DataFrame) : Prop :=
  columns df = header ∧ Forall (Forall2 cell_ok kinds) (data df).

(** [read_csv] makes a column [float64] when one of its cells is written with
    a decimal point or an exponent; a column of a valid file whose cells are
    all written as integers comes out [int64], whatever the column is meant
    to hold.  So in a float column of valid data a cell is a finite double or
    an integer. *)
Definition parsed_cell (k : kind) (v : value) : Prop :=
  match k, v with
  | KFloat, VInt _ => True
  | _, _ => cell_ok k v
  end.


(** The types of the loader's docstring. *)
Inductive pytype :=
  | PInt
  | PFloat
  | PIntIn (lo hi : Z).

Definition has_type (t : pytype) (v : value) : Prop :=
  match t, v with
  | PInt, VInt _ => True
  | PFloat, VFloat _ => True
  | PIntIn lo hi, VInt z => lo ≤ z ≤ hi
  | _, _ => False
  end.

Definition evidence_types : list pytype :=
  [PInt; PFloat; PInt; PFloat; PInt; PFloat; PFloat; PFloat; PFloat; PFloat;
   PIntIn 0 11; PInt; PInt; PInt; PInt; PIntIn 0 1; PIntIn 0 1].

Definition label_type : pytype := PIntIn 0 1.

(** The type a cell comes out with, in a column documented as [t]: the
    documented one, except that an integer in a float column stays an
    integer. *)
Definition output_type (t : pytype) (v : value) : pytype :=
  match t, v with
  | PFloat, VInt _ => PInt
  | _, _ => t
  end.

(** ** Sample runs

    The split keeps the file order, [to_json] keeps the doubles of the samples
    (they have one decimal), and the classifier is a brute-force search for
    the nearest training row, the first one on ties. *)

Definition float_of_value (v : value) : result float :=
  match v with
  | VInt z =>
      Ok (if decide (z < 0) then - of_uint63 (Uint63.of_Z (- z))
          else of_uint63 (Uint63.of_Z z))%float
  | VFloat f => Ok f
  | VBool b => Ok (if b then 1 else 0)%float
  | _ => Raise ValueError
  end.

Definition squared_distance (a b : list float) : float :=
  foldr (λ p acc, ((p.1 - p.2) * (p.1 - p.2) + acc)%float) 0%float (zip a b).

Fixpoint nearest (q : list float) (train : list (list float * Z))
    (best : float * Z) : Z :=
  match train with
  | [] => best.2
  | (x, l) :: train' =>
      let d := squared_distance x q in
      if (d <? best.1)%float then nearest q train' (d, l)
      else nearest q train' best
  end.

Definition brute_force_1nn (X : list (list value)) (y : list value)
    (T : list (list value)) : result (list Z) :=
  X ← mapM (mapM float_of_value) X;
  y ← from_option Ok (Raise ValueError) (mapM label_of y);
  T ← mapM (mapM float_of_value) T;
  match zip X y with
  | [] => Raise ValueError
  | (x, l) :: train =>
      Ok ((λ q, nearest q train (squared_distance x q, l)) <$> T)
  end.

Definition world_of (df : DataFrame) : World :=
  {| read_csv := λ _, Ok df;
     json_double := λ f, f;
     rng_permutation := λ n, seq 0 n;
     knn_predict := brute_force_1nn |}.

Definition sample_row (page_values : float) (month visitor : string)
    (weekend revenue : bool) : list value :=
  [VInt 0; VFloat 0.5; VInt 0; VFloat 0.5; VInt 1; VFloat 0.5; VFloat 0.25;
   VFloat 0.25; VFloat page_values; VFloat 0.5; VStr month; VInt 1; VInt 1;
   VInt 1; VInt 1; VStr visitor; VBool weekend; VBool revenue].

(** Five sessions: the first two are held out, one of each class. *)
Definition sample_frame : DataFrame :=
  {| columns := header;
     data := [sample_row 0 "Feb" "Returning_Visitor" false false;
              sample_row 50 "June" "Other" true true;
              sample_row 0.5 "Mar" "Returning_Visitor" false false;
              sample_row 48.5 "Nov" "New_Visitor" true true;
              sample_row 1.5 "Dec" "Other" false false] |}.

Definition sample_world : World := world_of sample_frame.



(** A table with a month and a visitor type outside the dictionaries. *)
Definition unseen_frame : DataFrame :=
  {| columns := header;
     data := [sample_row 0 "Jun" "Guest" false false] |}.

Definition unseen_world : World := world_of unseen_frame.

(** A table with a missing month: [read_csv] leaves NaN in the cell. *)
Definition blank_month_frame : DataFrame :=
  {| columns := header;
     data := [sample_row 0 "Feb" "Returning_Visitor" false false;
              <[10%nat := VFloat nan]>
                (sample_row 50 "Mar" "New_Visitor" true true)] |}.

Definition blank_month_world : World := world_of blank_month_frame.



(** ** Vocabulary of the reporter's properties *)





(** A single session: too few rows to split. *)
Definition single_row : list (list value) :=
  [[VInt 0; VFloat 0.5; VInt 0; VFloat 0.5; VInt 1; VFloat 0.5; VFloat 0.25;
    VFloat 0.25; VFloat 0.5; VFloat 0.5; VInt 1; VInt 1; VInt 1; VInt 1;
    VInt 1; VInt 1; VInt 0]].

(** ** Vocabulary of the evaluator's properties *)

(** Every label is 0 or 1. *)
Definition binary (l : list Z) : Prop := Forall (λ x, x = 0 ∨ x = 1) l.

Definition true_negatives (labels predictions : list Z) : Z :=
  count_pairs labels predictions 0 0.
Definition false_positives (labels predictions : list Z) : Z :=
  count_pairs labels predictions 0 1.
Definition false_negatives (labels predictions : list Z) : Z :=
  count_pairs labels predictions 1 0.
Definition true_positives (labels predictions : list Z) : Z :=
  count_pairs labels predictions 1 1.

(** The counts as the specification words them, sample by sample: the
    number of positions at which the true label is [actual] and the
    predicted label is [predicted]. *)
Definition samples (labels predictions : list Z) (actual predicted : Z) : Z :=
  Z.of_nat (length (filter
    (λ i, labels !! i = Some actual ∧ predictions !! i = Some predicted)
    (seq 0 (length labels)))).

(** The quotient of two integers as IEEE-754 defines it: each is rounded to
    binary64 (exactly, below 2^53) and the quotient is rounded to the nearest
    double, ties to even; 0/0 is NaN. *)
Definition ieee_quotient (num den : Z) : spec_float :=
  SF64div (binary_normalize prec emax num 0 false)
          (binary_normalize prec emax den 0 false).

(** ** Further sample worlds *)

(** A run whose data file does not exist. *)
Definition missing_world : World :=
  {| read_csv := λ _, Raise FileNotFoundError;
     json_double := λ f, f;
     rng_permutation := λ n, seq 0 n;
     knn_predict := brute_force_1nn |}.

(** A data file with a single session. *)
Definition lone_frame : DataFrame :=
  {| columns := header;
     data := [sample_row 0 "Feb" "Returning_Visitor" false false] |}.

Definition lone_world : World := world_of lone_frame.

(** A table that has the label column only. *)
Definition label_only_frame : DataFrame :=
  {| columns := ["Revenue"];
     data := [[VBool true]; [VBool false]; [VBool true]] |}.

Definition label_only_world : World := world_of label_only_frame.

(** * Properties *)

(** ** The evaluator *)

Ltac solve_binary :=
  unfold binary; repeat (constructor; [auto|]); constructor.

(** Over labels 0 and 1 the label list is [0] if 0 occurs, then [1] if 1
    occurs. *)
Lemma unique_labels_binary l :
  binary l →
  unique_labels l =
    (if decide (0 ∈ l) then [0] else []) ++ (if decide (1 ∈ l) then [1] else []).
Proof.
  induction l as [|x l IH]; [done|].
  intros [Hx Hl]%Forall_cons. cbn [unique_labels foldr].
  fold (unique_labels l). rewrite (IH Hl).
  destruct Hx as [-> | ->];
    repeat case_decide; set_solver by (done || lia).
Qed.

Lemma count_pairs_absent_true y_true y_pred a b :
  a ∉ y_true → count_pairs y_true y_pred a b = 0.
Proof.
  unfold count_pairs. revert y_pred.
  induction y_true as [|x l IH]; intros [|y p] Hx; try done.
  apply not_elem_of_cons in Hx as [Hne Hl]. cbn [zip zip_with].
  rewrite filter_cons_False; [by apply IH|]. congruence.
Qed.

Lemma binary_int64 l : binary l → Forall int64 l.
Proof.
  intros Hl. eapply Forall_impl; [exact Hl|]. unfold int64. cbn. lia.
Qed.

(** Lists of one length in which some label occurs are not empty. *)
Lemma occurs_nonempty (x : Z) labels predictions :
  length labels = length predictions →
  x ∈ labels ++ predictions → labels ≠ [].
Proof.
  intros Hlen Hx ->. destruct predictions; [|done]. by apply elem_of_nil in Hx.
Qed.

Lemma confusion_matrix_binary labels predictions :
  length labels = length predictions →
  binary labels → binary predictions →
  0 ∈ labels ++ predictions → 1 ∈ labels ++ predictions →
  confusion_matrix labels predictions =
    Ok [[true_negatives labels predictions; false_positives labels predictions];
        [false_negatives labels predictions; true_positives labels predictions]].
Proof.
  intros Hlen Hl Hp H0 H1. unfold confusion_matrix.
  rewrite decide_True by done.
  rewrite decide_False by by eapply occurs_nonempty.
  rewrite decide_True by by apply binary_int64, Forall_app.
  rewrite unique_labels_binary by by apply Forall_app.
  by rewrite !decide_True.
Qed.

Lemma evaluate_binary labels predictions :
  length labels = length predictions →
  binary labels → binary predictions →
  0 ∈ labels ++ predictions → 1 ∈ labels ++ predictions →
  evaluate labels predictions =
    Ok (np_true_divide (true_positives labels predictions)
          (true_positives labels predictions
           + false_negatives labels predictions),
        np_true_divide (true_negatives labels predictions)
          (true_negatives labels predictions
           + false_positives labels predictions)).
Proof.
  intros Hlen Hl Hp H0 H1. unfold evaluate.
  by rewrite confusion_matrix_binary.
Qed.

(** Without both classes among the labels and predictions the matrix has no
    second row, and reading it fails. *)
Lemma evaluate_single_class labels predictions :
  binary labels → binary predictions →
  0 ∉ labels ++ predictions ∨ 1 ∉ labels ++ predictions →
  raises (evaluate labels predictions).
Proof.
  intros Hl Hp Hmiss. unfold evaluate, confusion_matrix.
  case_decide; [|done]. case_decide; [done|]. case_decide; [|done].
  rewrite unique_labels_binary by by apply Forall_app.
  destruct Hmiss; repeat case_decide; done.
Qed.

Lemma evaluate_length_mismatch labels predictions :
  length labels ≠ length predictions →
  evaluate labels predictions = Raise ValueError.
Proof.
  intros Hlen. unfold evaluate, confusion_matrix. by rewrite decide_False.
Qed.

(** With a class absent from the labels, a run of [evaluate] that returns has
    divided 0 by 0 for the rate of that class. *)
Lemma evaluate_absent_class labels predictions :
  binary labels → binary predictions →
  (0 ∉ labels ∨ 1 ∉ labels) →
  raises (evaluate labels predictions) ∨
  evaluate labels predictions =
    Ok (np_true_divide (true_positives labels predictions)
          (true_positives labels predictions
           + false_negatives labels predictions),
        np_true_divide (true_negatives labels predictions)
          (true_negatives labels predictions
           + false_positives labels predictions)).
Proof.
  intros Hl Hp _.
  destruct (decide (length labels = length predictions)) as [Hlen|Hlen];
    [|left; by rewrite evaluate_length_mismatch].
  destruct (decide (0 ∈ labels ++ predictions)) as [H0|H0];
    [|left; apply evaluate_single_class; auto].
  destruct (decide (1 ∈ labels ++ predictions)) as [H1|H1];
    [|left; apply evaluate_single_class; auto].
  right. by apply evaluate_binary.
Qed.

(** The count of the matrix is the count by sample. *)
Lemma length_filter_seq_S (P : nat → Prop) `{!∀ i, Decision (P i)} k n :
  length (filter P (seq (S k) n)) = length (filter (λ i, P (S i)) (seq k n)).
Proof.
  revert k. induction n as [|n IH]; intros k; [done|].
  cbn [seq]. rewrite !filter_cons.
  destruct (decide (P (S k))); cbn [length]; by rewrite IH.
Qed.

Lemma count_pairs_samples labels predictions a b :
  length labels = length predictions →
  count_pairs labels predictions a b = samples labels predictions a b.
Proof.
  unfold count_pairs, samples. intros Hlen. f_equal. revert predictions Hlen.
  induction labels as [|x labels IH]; intros [|y predictions] Hlen; try done.
  injection Hlen as Hlen. specialize (IH predictions Hlen).
  cbn [zip zip_with length seq].
  destruct (decide ((x, y) = (a, b))) as [[= -> ->]|Hne].
  - rewrite !filter_cons_True by done. cbn [length].
    by rewrite length_filter_seq_S, IH.
  - rewrite (filter_cons_False _ (x, y)) by done.
    rewrite (filter_cons_False _ 0%nat) by (intros [[= ->] [= ->]]; done).
    by rewrite length_filter_seq_S, IH.
Qed.

Lemma count_pairs_cons x y labels predictions a b :
  count_pairs (x :: labels) (y :: predictions) a b
  = (if decide ((x, y) = (a, b)) then 1 else 0)
    + count_pairs labels predictions a b.
Proof.
  unfold count_pairs. cbn [zip zip_with]. rewrite filter_cons.
  case_decide; cbn [length]; lia.
Qed.

(** The samples of one true label, correctly and wrongly predicted, are no
    more than all the samples. *)
Lemma count_pairs_row a b b' labels predictions :
  b ≠ b' →
  0 ≤ count_pairs labels predictions a b ∧
  0 ≤ count_pairs labels predictions a b' ∧
  count_pairs labels predictions a b + count_pairs labels predictions a b'
  ≤ Z.of_nat (length labels).
Proof.
  intros Hb. revert predictions.
  induction labels as [|x labels IH]; intros [|y predictions];
    try (unfold count_pairs; cbn; lia).
  rewrite !count_pairs_cons. specialize (IH predictions).
  cbn [length]. repeat case_decide; simplify_eq; lia.
Qed.

(** numpy's division of two counts is the IEEE-754 quotient. *)
Lemma np_true_divide_ieee num den :
  0 ≤ num < 2 ^ 63 → 0 ≤ den < 2 ^ 63 →
  Prim2SF (np_true_divide num den) = ieee_quotient num den.
Proof.
  intros Hnum Hden. unfold np_true_divide, ieee_quotient.
  rewrite FloatAxioms.div_spec, !of_uint63_spec, !of_Z_spec.
  change wB with (2 ^ 63). by rewrite !Z.mod_small.
Qed.

(** The rates [evaluate] returns on a two-row matrix, in the words of the
    specification. *)
Lemma rates_ieee a b labels predictions :
  length labels = length predictions →
  Z.of_nat (length labels) < 2 ^ 63 → a ≠ b →
  let TN := samples labels predictions a a in
  let FP := samples labels predictions a b in
  let FN := samples labels predictions b a in
  let TP := samples labels predictions b b in
  Prim2SF (np_true_divide (count_pairs labels predictions b b)
             (count_pairs labels predictions b b
              + count_pairs labels predictions b a))
  = ieee_quotient TP (TP + FN) ∧
  Prim2SF (np_true_divide (count_pairs labels predictions a a)
             (count_pairs labels predictions a a
              + count_pairs labels predictions a b))
  = ieee_quotient TN (TN + FP).
Proof.
  intros Hlen Hsize Hab. cbv zeta.
  rewrite <- !(count_pairs_samples labels predictions) by done.
  pose proof (count_pairs_row b b a labels predictions) as Hb.
  pose proof (count_pairs_row a a b labels predictions) as Ha.
  split; apply np_true_divide_ieee; lia.
Qed.

(** C1: on 0/1 labels and predictions of one length in which both classes
    occur, the confusion matrix is [[TN, FP], [FN, TP]] (rows: true label,
    columns: predicted label, 0 before 1), where each entry counts the
    samples with that true and that predicted label, and [evaluate] returns
    the doubles TP/(TP+FN) and TN/(TN+FP), the quotients being those of
    IEEE-754.  On labels [1,1,0,0] and predictions [1,0,0,1] it returns
    (0.5, 0.5); on three positives found out of four and one negative out of
    four it returns (0.75, 0.25). *)
Theorem evaluate_sensitivity_specificity :
  (∀ labels predictions : list Z,
     length labels = length predictions →
     Z.of_nat (length labels) < 2 ^ 63 →
     binary labels → binary predictions →
     0 ∈ labels ++ predictions → 1 ∈ labels ++ predictions →
     let TN := samples labels predictions 0 0 in
     let FP := samples labels predictions 0 1 in
     let FN := samples labels predictions 1 0 in
     let TP := samples labels predictions 1 1 in
     confusion_matrix labels predictions = Ok [[TN; FP]; [FN; TP]] ∧
     ∃ sensitivity specificity,
       evaluate labels predictions = Ok (sensitivity, specificity) ∧
       Prim2SF sensitivity = ieee_quotient TP (TP + FN) ∧
       Prim2SF specificity = ieee_quotient TN (TN + FP))
  ∧ evaluate [1; 1; 0; 0] [1; 0; 0; 1] = Ok (0.5, 0.5)%float
  ∧ evaluate [1; 1; 1; 1; 0; 0; 0; 0] [1; 1; 1; 0; 0; 1; 1; 1]
    = Ok (0.75, 0.25)%float.
Proof.
  split; [|split; by vm_compute].
  intros labels predictions Hlen Hsize Hl Hp H0 H1. cbv zeta. split.
  - rewrite confusion_matrix_binary by done.
    unfold true_negatives, false_positives, false_negatives, true_positives.
    by rewrite !count_pairs_samples.
  - eexists _, _. split; [by apply evaluate_binary|].
    unfold true_negatives, false_positives, false_negatives, true_positives.
    by apply (rates_ieee 0 1).
Qed.

Lemma evaluate_sensitivity_specificity_witness :
  let labels := [1; 1; 1; 1; 0; 0; 0; 0] in
  let predictions := [1; 1; 1; 0; 0; 1; 1; 1] in
  length labels = length predictions ∧
  binary labels ∧ binary predictions ∧
  confusion_matrix labels predictions = Ok [[1; 3]; [1; 3]] ∧
  ∃ sensitivity specificity,
    evaluate labels predictions = Ok (sensitivity, specificity) ∧
    sensitivity = 0.75%float ∧ specificity = 0.25%float.
Proof.
  intros labels predictions.
  split; [reflexivity|]. split; [solve_binary|]. split; [solve_binary|].
  destruct (proj1 evaluate_sensitivity_specificity labels predictions)
    as (Hmatrix & sensitivity & specificity & Heval & Hsens & Hspec).
  - reflexivity.
  - reflexivity.
  - solve_binary.
  - solve_binary.
  - set_solver.
  - set_solver.
  - split; [exact Hmatrix|]. exists sensitivity, specificity.
    split; [exact Heval|]. split; by apply Prim2SF_inj.
Defined.

(** C2: on 0/1 labels without a negative (without a positive) example,
    [evaluate] either raises or returns NaN for the specificity (for the
    sensitivity); on labels and predictions [1,1,1,1] it raises. *)
Theorem evaluate_degenerate :
  (∀ labels predictions : list Z,
     binary labels → binary predictions →
     (0 ∉ labels →
        match evaluate labels predictions with
        | Raise _ => True
        | Ok (_, specificity) => is_nan specificity = true
        end) ∧
     (1 ∉ labels →
        match evaluate labels predictions with
        | Raise _ => True
        | Ok (sensitivity, _) => is_nan sensitivity = true
        end))
  ∧ evaluate [1; 1; 1; 1] [1; 1; 1; 1] = Raise IndexError.
Proof.
  split; [|by vm_compute].
  intros labels predictions Hl Hp.
  assert (is_nan (np_true_divide 0 (0 + 0)) = true) as Hnan by by vm_compute.
  split; intros Hc.
  - destruct (evaluate_absent_class _ _ Hl Hp (or_introl Hc)) as [He| ->].
    + by destruct (evaluate _ _).
    + unfold true_negatives, false_positives.
      by rewrite !count_pairs_absent_true.
  - destruct (evaluate_absent_class _ _ Hl Hp (or_intror Hc)) as [He| ->].
    + by destruct (evaluate _ _).
    + unfold true_positives, false_negatives.
      by rewrite !count_pairs_absent_true.
Qed.

Lemma evaluate_degenerate_witness :
  binary [1; 1; 1; 1] ∧ binary [1; 0; 1; 1] ∧ 0 ∉ [1; 1; 1; 1] ∧
  match evaluate [1; 1; 1; 1] [1; 0; 1; 1] with
  | Raise _ => True
  | Ok (_, specificity) => is_nan specificity = true
  end.
Proof.
  split; [solve_binary|]. split; [solve_binary|]. split; [set_solver|].
  apply (proj1 evaluate_degenerate [1; 1; 1; 1] [1; 0; 1; 1]).
  - solve_binary.
  - solve_binary.
  - set_solver.
Defined.

(** ** The loader *)

Lemma replace_cell_unmapped d c v :
  mapping !! c = None → replace_cell d c v = v.
Proof. unfold replace_cell. by intros ->. Qed.

Lemma replace_cell_held d c t v :
  mapping !! c = Some t → can_hold_keys d t = true →
  replace_cell d c v = replace_in c v.
Proof. unfold replace_cell, replace_in. by intros -> ->. Qed.

Lemma replaced_lookup df row j c v :
  columns df !! j = Some c → row !! j = Some v →
  imap (replace_at df) row !! j = Some (replace_cell (dtype_of df j) c v).
Proof.
  intros Hc Hv. rewrite list_lookup_imap, Hv. cbn.
  unfold replace_at. by rewrite Hc.
Qed.

Lemma transform_df_lookup df i source :
  data df !! i = Some source →
  data (transform_df df) !! i = Some (imap (replace_at df) source).
Proof.
  intros Hi. unfold transform_df. cbn [data]. by rewrite list_lookup_fmap, Hi.
Qed.

Lemma length_transform_df df :
  length (data (transform_df df)) = length (data df).
Proof. unfold transform_df. cbn [data]. apply length_fmap. Qed.

(** The dtype of a column, from one of its cells. *)
Lemma elem_of_column_cells df i source j v :
  data df !! i = Some source → source !! j = Some v → v ∈ column_cells df j.
Proof.
  intros Hi Hv. apply list_elem_of_omap. exists source.
  split; [by eapply list_elem_of_lookup_2|done].
Qed.

Lemma forallb_elem_false (f : value → bool) cells v :
  v ∈ cells → f v = false → forallb f cells = false.
Proof.
  intros Hv Hf. apply not_true_is_false. intros Hall.
  rewrite forallb_forall in Hall.
  rewrite (Hall v) in Hf; [done|]. by apply list_elem_of_In.
Qed.

Lemma infer_dtype_object cells v :
  v ∈ cells → is_int v = false → is_float v = false → is_bool v = false →
  infer_dtype cells = dtype_object.
Proof.
  intros Hv Hint Hfloat Hbool. unfold infer_dtype.
  by rewrite !(forallb_elem_false _ cells v).
Qed.

Lemma infer_dtype_bool cells b t :
  VBool b ∈ cells → can_hold_keys (infer_dtype cells) (BoolTable t) = true.
Proof.
  intros Hv. unfold infer_dtype.
  rewrite (forallb_elem_false is_int cells (VBool b)) by done.
  rewrite (forallb_elem_false is_float cells (VBool b)) by done.
  by destruct (forallb is_bool cells).
Qed.

(** A string makes its column a column of objects, which holds every key. *)
Lemma replace_cell_str df i source j c s :
  data df !! i = Some source → source !! j = Some (VStr s) →
  replace_cell (dtype_of df j) c (VStr s) = replace_in c (VStr s).
Proof.
  intros Hi Hv. unfold dtype_of.
  rewrite (infer_dtype_object _ (VStr s)) by
    (done || by eapply elem_of_column_cells).
  unfold replace_cell, replace_in. by destruct (mapping !! c).
Qed.

(** A boolean makes its column one of booleans or of objects, which both
    hold the keys [True] and [False]. *)
Lemma replace_cell_bool df i source j c b v :
  data df !! i = Some source → source !! j = Some (VBool b) →
  c = "Weekend" ∨ c = "Revenue" →
  replace_cell (dtype_of df j) c v = replace_in c v.
Proof.
  intros Hi Hv Hc.
  apply (replace_cell_held _ _ (BoolTable bool_table));
    [by destruct Hc as [-> | ->]|].
  apply (infer_dtype_bool _ b). by eapply elem_of_column_cells.
Qed.

(** On a table with the eighteen columns the loader does not fail, and row by
    row it yields the first seventeen replaced cells and the eighteenth. *)
Lemma load_data_header w filename df :
  read_csv w filename = Ok df → columns df = header →
  load_data w filename =
    Ok ((λ row, json_scalar w <$> take 17 (imap (replace_at df) row))
          <$> data df,
        (λ row, json_scalar w
                  (default (VFloat nan) (imap (replace_at df) row !! 17%nat)))
          <$> data df).
Proof.
  intros Hread Hcols. unfold load_data. rewrite Hread. cbn.
  unfold iloc_last, dataframe_to_list_of_lists, series_to_list,
    iloc_all_but_last, transform_df. cbn. rewrite Hcols. cbn.
  by rewrite <- !list_fmap_compose.
Qed.

Lemma evidence_cell w df source j c v :
  (j < 17)%nat → columns df !! j = Some c → source !! j = Some v →
  (json_scalar w <$> take 17 (imap (replace_at df) source)) !! j
  = Some (json_scalar w (replace_cell (dtype_of df j) c v)).
Proof.
  intros Hj Hc Hv. rewrite list_lookup_fmap, lookup_take_lt by done.
  by rewrite (replaced_lookup _ _ _ _ _ Hc Hv).
Qed.

Lemma label_cell w df source v :
  columns df = header → source !! 17%nat = Some v →
  json_scalar w (default (VFloat nan) (imap (replace_at df) source !! 17%nat))
  = json_scalar w (replace_cell (dtype_of df 17) "Revenue" v).
Proof.
  intros Hcols Hv.
  by rewrite (replaced_lookup df _ 17 "Revenue" v) by by rewrite ?Hcols.
Qed.

(** C3: on a valid file the loader returns one evidence row and one label per
    source row, in file order; an evidence row has 17 elements, the cells of
    the columns before Revenue in column order, and the label is the cell of
    Revenue. *)
Theorem load_data_shape w filename df :
  read_csv w filename = Ok df → valid_frame df →
  ∃ evidence labels,
    load_data w filename = Ok (evidence, labels) ∧
    length evidence = length (data df) ∧
    length labels = length evidence ∧
    Forall (λ row, length row = 17%nat) evidence ∧
    take 17 header ++ ["Revenue"] = columns df ∧
    ∀ i source, data df !! i = Some source →
      ∃ row label,
        evidence !! i = Some row ∧ labels !! i = Some label ∧
        (∀ j c v, (j < 17)%nat →
           columns df !! j = Some c → source !! j = Some v →
           row !! j = Some (json_scalar w (replace_cell (dtype_of df j) c v))) ∧
        (∀ v, source !! 17%nat = Some v →
           label = json_scalar w (replace_cell (dtype_of df 17) "Revenue" v)).
Proof.
  intros Hread [Hcols Hrows]. eexists _, _.
  split; [by apply load_data_header|].
  split; [by rewrite length_fmap|].
  split; [by rewrite !length_fmap|].
  split.
  { apply Forall_fmap. eapply Forall_impl; [exact Hrows|].
    intros row Hlen. unfold compose.
    rewrite length_fmap, length_take, length_imap.
    cbv beta in Hlen. lia. }
  split; [by rewrite Hcols|].
  intros i source Hi. eexists _, _.
  rewrite !list_lookup_fmap, Hi. cbn.
  split; [done|]. split; [done|]. split.
  - intros j c v Hj Hc Hv. by apply evidence_cell.
  - intros v Hv. by apply label_cell.
Qed.

Lemma load_data_shape_witness :
  read_csv sample_world "shopping.csv" = Ok sample_frame ∧
  valid_frame sample_frame ∧
  ∃ evidence labels,
    load_data sample_world "shopping.csv" = Ok (evidence, labels) ∧
    length evidence = 5%nat ∧ length labels = 5%nat ∧
    Forall (λ row, length row = 17%nat) evidence.
Proof.
  assert (valid_frame sample_frame) as Hvalid.
  { split; [reflexivity|]. repeat constructor. }
  split; [reflexivity|]. split; [exact Hvalid|].
  destruct (load_data_shape sample_world "shopping.csv" sample_frame
              eq_refl Hvalid)
    as (evidence & labels & Hload & Hlen & Hlabels & Hrows & _).
  exists evidence, labels. split; [exact Hload|].
  split; [exact Hlen|]. split; [|exact Hrows].
  rewrite Hlabels. exact Hlen.
Defined.

Lemma month_table_lookup k m :
  expected_months !! k = Some m → month_table !! m = Some (Z.of_nat k).
Proof.
  intros H.
  do 12 (destruct k as [|k]; [injection H as <-; reflexivity|]). done.
Qed.

Lemma month_table_range s z : month_table !! s = Some z → 0 ≤ z ≤ 11.
Proof.
  unfold month_table. intros H.
  repeat (apply lookup_insert_Some in H as [[_ <-]|[_ H]]; [lia|]).
  apply lookup_singleton_Some in H as [_ <-]. lia.
Qed.

Lemma month_table_None s : s ∉ expected_months → month_table !! s = None.
Proof.
  unfold expected_months, month_abbreviations, month_table. cbn. intros H.
  repeat (apply not_elem_of_cons in H as [? H]).
  by rewrite !lookup_insert_ne, lookup_singleton_ne.
Qed.

Lemma visitor_table_lookup s :
  s ∈ visitor_types →
  ∃ z, visitor_table !! s = Some z ∧ (z = 0 ∨ z = 1).
Proof.
  unfold visitor_types. intros H.
  repeat (apply elem_of_cons in H as [->|H]; [eexists; split; [reflexivity|lia]|]).
  by apply elem_of_nil in H.
Qed.

Lemma visitor_table_None s : s ∉ visitor_types → visitor_table !! s = None.
Proof.
  unfold visitor_types, visitor_table. intros H.
  repeat (apply not_elem_of_cons in H as [? H]).
  by rewrite !lookup_insert_ne, lookup_singleton_ne.
Qed.

Lemma replace_in_month v :
  replace_in "Month" v = replace_value (StrTable month_table) v.
Proof. reflexivity. Qed.

Lemma replace_in_visitor v :
  replace_in "VisitorType" v = replace_value (StrTable visitor_table) v.
Proof. reflexivity. Qed.

Lemma replace_in_weekend v :
  replace_in "Weekend" v = replace_value (BoolTable bool_table) v.
Proof. reflexivity. Qed.

Lemma replace_in_revenue v :
  replace_in "Revenue" v = replace_value (BoolTable bool_table) v.
Proof. reflexivity. Qed.

(** The cell of feature column [j] of source row [i], as the loader returns
    it. *)
Lemma load_data_feature w filename df i source j c v :
  read_csv w filename = Ok df → valid_frame df →
  data df !! i = Some source →
  (j < 17)%nat → header !! j = Some c → source !! j = Some v →
  ∃ evidence labels row,
    load_data w filename = Ok (evidence, labels) ∧
    evidence !! i = Some row ∧
    row !! j = Some (json_scalar w (replace_cell (dtype_of df j) c v)).
Proof.
  intros Hread [Hcols _] Hi Hj Hc Hv. eexists _, _, _.
  split; [by apply load_data_header|].
  rewrite list_lookup_fmap, Hi. split; [done|].
  apply evidence_cell; [done| |done]. by rewrite Hcols.
Qed.

Lemma load_data_label w filename df i source v :
  read_csv w filename = Ok df → valid_frame df →
  data df !! i = Some source → source !! 17%nat = Some v →
  ∃ evidence labels,
    load_data w filename = Ok (evidence, labels) ∧
    labels !! i
    = Some (json_scalar w (replace_cell (dtype_of df 17) "Revenue" v)).
Proof.
  intros Hread [Hcols _] Hi Hv. eexists _, _.
  split; [by apply load_data_header|].
  rewrite list_lookup_fmap, Hi.
  exact (f_equal Some (label_cell w df source v Hcols Hv)).
Qed.

(** C4: each of the twelve expected month strings, the three-letter
    abbreviations with June spelled in full, is remapped to its index 0..11,
    in the table and in the evidence row the loader returns; the abbreviation
    Jun is not a key. *)
Theorem month_remapping :
  expected_months =
    ["Jan"; "Feb"; "Mar"; "Apr"; "May"; "June";
     "Jul"; "Aug"; "Sep"; "Oct"; "Nov"; "Dec"] ∧
  replace_in "Month" (VStr "Jun") = VStr "Jun" ∧
  (∀ k m, expected_months !! k = Some m →
     replace_in "Month" (VStr m) = VInt (Z.of_nat k) ∧ 0 ≤ Z.of_nat k ≤ 11) ∧
  (∀ w filename df i source k m,
     read_csv w filename = Ok df → valid_frame df →
     data df !! i = Some source →
     source !! 10%nat = Some (VStr m) → expected_months !! k = Some m →
     ∃ evidence labels row,
       load_data w filename = Ok (evidence, labels) ∧
       evidence !! i = Some row ∧
       row !! 10%nat = Some (VInt (Z.of_nat k))).
Proof.
  assert (∀ k m, expected_months !! k = Some m →
            replace_in "Month" (VStr m) = VInt (Z.of_nat k)) as Hmonth.
  { intros k m Hk. rewrite replace_in_month. unfold replace_value. cbn.
    by rewrite (month_table_lookup _ _ Hk). }
  split; [reflexivity|]. split; [reflexivity|]. split.
  - intros k m Hk. split; [by apply Hmonth|].
    apply lookup_lt_Some in Hk. cbn in Hk. lia.
  - intros w filename df i source k m Hread Hvalid Hi Hv Hk.
    destruct (load_data_feature w filename df i source 10 "Month" (VStr m))
      as (evidence & labels & row & Hload & Hrow & Hcell); try done; [lia|].
    exists evidence, labels, row.
    rewrite (replace_cell_str df i source) in Hcell by done.
    rewrite (Hmonth _ _ Hk) in Hcell. done.
Qed.

Lemma month_remapping_witness :
  read_csv sample_world "shopping.csv" = Ok sample_frame ∧
  valid_frame sample_frame ∧
  ∃ evidence labels row,
    load_data sample_world "shopping.csv" = Ok (evidence, labels) ∧
    evidence !! 1%nat = Some row ∧
    row !! 10%nat = Some (VInt 5).
Proof.
  assert (valid_frame sample_frame) as Hvalid.
  { split; [reflexivity|]. repeat constructor. }
  split; [reflexivity|]. split; [exact Hvalid|].
  exact (proj2 (proj2 (proj2 month_remapping)) sample_world "shopping.csv"
           sample_frame 1%nat
           (sample_row 50 "June" "Other" true true) 5%nat "June"
           eq_refl Hvalid eq_refl eq_refl eq_refl).
Defined.

Lemma py_eq_str s : py_eq (VStr s) (VStr s) = true.
Proof. cbn. by rewrite bool_decide_eq_true. Qed.

(** A value that equals no key of its column's dictionary has no entry in
    it. *)
Lemma replace_in_not_key c keys v :
  (c, keys) ∈ mapped_keys → (∀ k, k ∈ keys → py_eq v k = false) →
  replace_in c v = v.
Proof.
  unfold mapped_keys. intros Hc Hv.
  repeat (apply elem_of_cons in Hc as [[= -> ->]|Hc]);
    [| | | |by apply elem_of_nil in Hc].
  - rewrite replace_in_month. unfold replace_value.
    destruct v as [| |s| |]; try done. cbn.
    rewrite month_table_None; [done|].
    intros Hs. specialize (Hv (VStr s)). rewrite py_eq_str in Hv.
    discriminate Hv. change (VStr s ∈ VStr <$> expected_months).
    by apply list_elem_of_fmap_2.
  - rewrite replace_in_visitor. unfold replace_value.
    destruct v as [| |s| |]; try done. cbn.
    rewrite visitor_table_None; [done|].
    intros Hs. specialize (Hv (VStr s)). rewrite py_eq_str in Hv.
    discriminate Hv. change (VStr s ∈ VStr <$> visitor_types).
    by apply list_elem_of_fmap_2.
  - rewrite replace_in_weekend. unfold replace_value, table_lookup.
    rewrite !Hv by set_solver. done.
  - rewrite replace_in_revenue. unfold replace_value, table_lookup.
    rewrite !Hv by set_solver. done.
Qed.

Lemma replace_cell_not_key d c keys v :
  (c, keys) ∈ mapped_keys → (∀ k, k ∈ keys → py_eq v k = false) →
  replace_cell d c v = v.
Proof.
  intros Hc Hv. pose proof (replace_in_not_key c keys v Hc Hv) as Hin.
  unfold replace_cell, replace_in in *.
  destruct (mapping !! c); [|done]. by destruct (can_hold_keys d t).
Qed.

(** C5: a value of one of the four remapped columns that equals no key of
    that column's dictionary is left as it is by the replacement, whatever
    the dtype of the column, and the loader neither remaps nor rejects it.
    What the loader returns in its place is the value after [to_json] and
    [json.loads]: the same string, integer, boolean or None, but for a
    double the double that JSON gives back, and None for NaN and the
    infinities. *)
Theorem unmapped_pass_through :
  (∀ d c keys v,
     (c, keys) ∈ mapped_keys → (∀ k, k ∈ keys → py_eq v k = false) →
     replace_cell d c v = v) ∧
  (∀ df i source j c keys v,
     data df !! i = Some source →
     columns df !! j = Some c → source !! j = Some v →
     (c, keys) ∈ mapped_keys → (∀ k, k ∈ keys → py_eq v k = false) →
     ∃ row, data (transform_df df) !! i = Some row ∧ row !! j = Some v) ∧
  (∀ w filename df i source j c keys v,
     read_csv w filename = Ok df → valid_frame df →
     data df !! i = Some source →
     header !! j = Some c → source !! j = Some v →
     (c, keys) ∈ mapped_keys → (∀ k, k ∈ keys → py_eq v k = false) →
     ∃ evidence labels returned,
       load_data w filename = Ok (evidence, labels) ∧
       ((j < 17)%nat →
          ∃ row, evidence !! i = Some row ∧ row !! j = Some returned) ∧
       (j = 17%nat → labels !! i = Some returned) ∧
       match v with
       | VFloat f =>
           returned = if is_finite f then VFloat (json_double w f) else VNone
       | _ => returned = v
       end).
Proof.
  split; [exact replace_cell_not_key|]. split.
  { intros df i source j c keys v Hi Hc Hv Hkeys Hnot. eexists.
    split; [by apply transform_df_lookup|].
    rewrite (replaced_lookup _ _ _ _ _ Hc Hv).
    by rewrite (replace_cell_not_key _ _ _ _ Hkeys Hnot). }
  intros w filename df i source j c keys v Hread Hvalid Hi Hc Hv Hkeys Hnot.
  pose proof (replace_cell_not_key (dtype_of df j) _ _ _ Hkeys Hnot) as Hsame.
  destruct Hvalid as [Hcols Hrows]. eexists _, _, (json_scalar w v).
  split; [by apply load_data_header|]. split; [|split].
  - intros Hj. eexists. rewrite list_lookup_fmap, Hi. split; [done|].
    rewrite (evidence_cell w df source j c v) by by rewrite ?Hcols.
    by rewrite Hsame.
  - intros ->. injection Hc as <-.
    rewrite list_lookup_fmap, Hi. cbn.
    rewrite (label_cell w df source v Hcols Hv). by rewrite Hsame.
  - by destruct v.
Qed.

Lemma unmapped_pass_through_witness :
  read_csv unseen_world "shopping.csv" = Ok unseen_frame ∧
  valid_frame unseen_frame ∧
  ("Month", VStr <$> expected_months) ∈ mapped_keys ∧
  (∀ k, k ∈ VStr <$> expected_months → py_eq (VStr "Jun") k = false) ∧
  ∃ evidence labels,
    load_data unseen_world "shopping.csv" = Ok (evidence, labels) ∧
    ∃ row, evidence !! 0%nat = Some row ∧ row !! 10%nat = Some (VStr "Jun").
Proof.
  assert (valid_frame unseen_frame) as Hvalid.
  { split; [reflexivity|]. repeat constructor. }
  assert (("Month", VStr <$> expected_months) ∈ mapped_keys) as Hkeys.
  { unfold mapped_keys. left. }
  assert (∀ k, k ∈ VStr <$> expected_months → py_eq (VStr "Jun") k = false)
    as Hnot.
  { cbn. intros k H.
    repeat (apply elem_of_cons in H as [->|H]; [reflexivity|]).
    by apply elem_of_nil in H. }
  split; [reflexivity|]. split; [exact Hvalid|].
  split; [exact Hkeys|]. split; [exact Hnot|].
  destruct (proj2 (proj2 unmapped_pass_through) unseen_world
              "shopping.csv"
              unseen_frame 0%nat (sample_row 0 "Jun" "Guest" false false)
              10%nat "Month" (VStr <$> expected_months) (VStr "Jun")
              eq_refl Hvalid eq_refl eq_refl eq_refl Hkeys Hnot)
    as (evidence & labels & returned & Hload & Hrow & _ & ->).
  exists evidence, labels. split; [exact Hload|].
  apply Hrow. lia.
Defined.

(** A missing month is NaN in the table: it equals no key, the replacement
    leaves it, and the loader returns None in its place. *)
Lemma unmapped_nan_returned_none :
  ("Month", VStr <$> expected_months) ∈ mapped_keys ∧
  (∀ k, k ∈ VStr <$> expected_months → py_eq (VFloat nan) k = false) ∧
  (∃ source, data blank_month_frame !! 1%nat = Some source ∧
             source !! 10%nat = Some (VFloat nan)) ∧
  ∃ evidence labels row,
    load_data blank_month_world "shopping.csv" = Ok (evidence, labels) ∧
    evidence !! 1%nat = Some row ∧
    row !! 10%nat = Some VNone ∧
    VNone ≠ VFloat nan.
Proof.
  split; [unfold mapped_keys; left|]. split.
  { cbn. intros k H.
    repeat (apply elem_of_cons in H as [->|H]; [reflexivity|]).
    by apply elem_of_nil in H. }
  split; [by eexists|].
  eexists _, _, _. split; [by vm_compute|]. by repeat split.
Qed.

(** C10: the dictionary sends Other to 0, the code of New_Visitor, and
    Returning_Visitor to 1, so each of the three visitor types becomes 0 or 1;
    a row whose visitor type is Other has 0 in that place of its evidence
    row. *)
Theorem visitor_type_other :
  replace_in "VisitorType" (VStr "Other") = VInt 0 ∧
  replace_in "VisitorType" (VStr "New_Visitor") = VInt 0 ∧
  replace_in "VisitorType" (VStr "Returning_Visitor") = VInt 1 ∧
  (∀ s, s ∈ visitor_types →
     ∃ z, replace_in "VisitorType" (VStr s) = VInt z ∧ (z = 0 ∨ z = 1)) ∧
  (∀ w filename df i source,
     read_csv w filename = Ok df → valid_frame df →
     data df !! i = Some source →
     source !! 15%nat = Some (VStr "Other") →
     ∃ evidence labels row,
       load_data w filename = Ok (evidence, labels) ∧
       evidence !! i = Some row ∧
       row !! 15%nat = Some (VInt 0)).
Proof.
  split; [reflexivity|]. split; [reflexivity|]. split; [reflexivity|]. split.
  - intros s Hs. destruct (visitor_table_lookup s Hs) as (z & Hz & Hrange).
    exists z. rewrite replace_in_visitor. unfold replace_value. cbn.
    by rewrite Hz.
  - intros w filename df i source Hread Hvalid Hi Hv.
    destruct (load_data_feature w filename df i source 15 "VisitorType"
                (VStr "Other"))
      as (evidence & labels & row & Hload & Hrow & Hcell); try done; [lia|].
    exists evidence, labels, row.
    by rewrite (replace_cell_str df i source) in Hcell by done.
Qed.

Lemma visitor_type_other_witness :
  read_csv sample_world "shopping.csv" = Ok sample_frame ∧
  valid_frame sample_frame ∧
  ∃ evidence labels row,
    load_data sample_world "shopping.csv" = Ok (evidence, labels) ∧
    evidence !! 1%nat = Some row ∧
    row !! 15%nat = Some (VInt 0).
Proof.
  assert (valid_frame sample_frame) as Hvalid.
  { split; [reflexivity|]. repeat constructor. }
  split; [reflexivity|]. split; [exact Hvalid|].
  exact (proj2 (proj2 (proj2 (proj2 visitor_type_other))) sample_world
           "shopping.csv" sample_frame 1%nat
           (sample_row 50 "June" "Other" true true)
           eq_refl Hvalid eq_refl eq_refl).
Defined.

(** A row of a table with the eighteen columns, replaced: only the cells of
    the four columns of [mapping] are looked up. *)
Lemma replaced_row_header df
    (v0 v1 v2 v3 v4 v5 v6 v7 v8 v9 v10 v11 v12 v13 v14 v15 v16 v17 : value) :
  columns df = header →
  imap (replace_at df)
    [v0; v1; v2; v3; v4; v5; v6; v7; v8; v9; v10; v11; v12; v13; v14; v15;
     v16; v17]
  = [v0; v1; v2; v3; v4; v5; v6; v7; v8; v9;
     replace_cell (dtype_of df 10) "Month" v10; v11; v12; v13; v14;
     replace_cell (dtype_of df 15) "VisitorType" v15;
     replace_cell (dtype_of df 16) "Weekend" v16;
     replace_cell (dtype_of df 17) "Revenue" v17].
Proof.
  intros Hcols. apply list_eq. intros j. rewrite list_lookup_imap.
  do 18 (destruct j as [|j];
         [cbn; unfold replace_at; rewrite Hcols; reflexivity|]).
  done.
Qed.

Lemma month_cell_type w v :
  parsed_cell KMonth v →
  has_type (PIntIn 0 11) (json_scalar w (replace_in "Month" v)).
Proof.
  destruct v as [| |s| |]; try done. intros Hs.
  rewrite replace_in_month. unfold replace_value, table_lookup.
  apply list_elem_of_lookup in Hs as [k Hk].
  rewrite (month_table_lookup _ _ Hk). cbn.
  apply lookup_lt_Some in Hk. cbn in Hk. lia.
Qed.

Lemma visitor_cell_type w v :
  parsed_cell KVisitor v →
  has_type (PIntIn 0 1) (json_scalar w (replace_in "VisitorType" v)).
Proof.
  destruct v as [| |s| |]; try done. intros Hs.
  rewrite replace_in_visitor. unfold replace_value, table_lookup.
  destruct (visitor_table_lookup s Hs) as (z & -> & Hz). cbn. lia.
Qed.

Lemma weekend_cell_type w v :
  parsed_cell KBool v →
  has_type (PIntIn 0 1) (json_scalar w (replace_in "Weekend" v)).
Proof. destruct v as [| | |[]|]; try done; intros _; cbn; lia. Qed.

Lemma revenue_cell_type w v :
  parsed_cell KBool v →
  has_type (PIntIn 0 1) (json_scalar w (replace_in "Revenue" v)).
Proof. destruct v as [| | |[]|]; try done; intros _; cbn; lia. Qed.

Lemma int_cell_type w v : parsed_cell KInt v → has_type PInt (json_scalar w v).
Proof. by destruct v. Qed.

Lemma float_cell_type w v :
  parsed_cell KFloat v → has_type (output_type PFloat v) (json_scalar w v).
Proof. destruct v; try done. cbn. by intros ->. Qed.

Lemma parsed_cell_str k v :
  k = KMonth ∨ k = KVisitor → parsed_cell k v → ∃ s, v = VStr s.
Proof. intros [-> | ->]; destruct v; try done; by eexists. Qed.

Lemma parsed_cell_bool v : parsed_cell KBool v → ∃ b, v = VBool b.
Proof. destruct v; try done; by eexists. Qed.

(** A row of valid data comes out with the types of the docstring, but for
    the integers of a float column. *)
Lemma parsed_row_types w df i row :
  columns df = header → data df !! i = Some row →
  Forall2 parsed_cell kinds row →
  Forall2 has_type (zip_with output_type evidence_types row)
    (json_scalar w <$> take 17 (imap (replace_at df) row)) ∧
  has_type label_type
    (json_scalar w
       (default (VFloat nan) (imap (replace_at df) row !! 17%nat))).
Proof.
  unfold kinds. intros Hcols Hi H.
  repeat (apply Forall2_cons_inv_l in H as (? & ? & ? & H & ->)).
  apply Forall2_nil_inv_l in H as ->.
  rewrite replaced_row_header by done.
  repeat match goal with
  | Hcell : parsed_cell ?k ?v |- _ =>
      first
        [ destruct (parsed_cell_str k v) as [? ->]; [by auto|done|]
        | destruct (parsed_cell_bool v Hcell) as [? ->] ];
      revert Hcell
  end.
  intros.
  rewrite !(replace_cell_str df i _ _ _ _ Hi) by done.
  rewrite !(replace_cell_bool df i _ _ _ _ _ Hi) by (done || auto).
  cbn [take fmap list_fmap lookup list_lookup default zip_with].
  unfold evidence_types, label_type.
  split; [|by apply revenue_cell_type].
  cbn [zip_with].
  repeat match goal with
  | |- context [output_type PInt ?v] =>
      change (output_type PInt v) with PInt
  | |- context [output_type (PIntIn ?lo ?hi) ?v] =>
      change (output_type (PIntIn lo hi) v) with (PIntIn lo hi)
  end.
  repeat (constructor;
          [by auto using int_cell_type, float_cell_type, month_cell_type,
             visitor_cell_type, weekend_cell_type|]).
  constructor.
Qed.

Lemma cell_ok_parsed k v : cell_ok k v → parsed_cell k v.
Proof. by destruct k, v. Qed.

(** Where the float columns hold doubles, the types are the documented
    ones. *)
Lemma output_types_typed row :
  Forall2 cell_ok kinds row →
  zip_with output_type evidence_types row = evidence_types.
Proof.
  unfold kinds. intros H.
  repeat (apply Forall2_cons_inv_l in H as (? & ? & ? & H & ->)).
  apply Forall2_nil_inv_l in H as ->.
  repeat match goal with
  | Hcell : cell_ok KFloat ?v |- _ =>
      destruct v as [|?| | |];
        [destruct Hcell|clear Hcell|destruct Hcell..]
  end.
  reflexivity.
Qed.

(** A row of well-typed cells comes out with the types of the docstring. *)
Lemma typed_row_types w df i row :
  columns df = header → data df !! i = Some row →
  Forall2 cell_ok kinds row →
  Forall2 has_type evidence_types
    (json_scalar w <$> take 17 (imap (replace_at df) row)) ∧
  has_type label_type
    (json_scalar w
       (default (VFloat nan) (imap (replace_at df) row !! 17%nat))).
Proof.
  intros Hcols Hi Hrow. rewrite <- (output_types_typed row Hrow).
  apply (parsed_row_types w df i); [done..|].
  eapply Forall2_impl; [exact Hrow|]. apply cell_ok_parsed.
Qed.


Ltac solve_cell :=
  first [exact I | reflexivity | (vm_compute; set_solver)].


(** ** The splitter *)

(** The number of held-out rows is 0.4 times the number of rows, rounded
    up. *)
Lemma n_test_of_ceiling n :
  (2 * n ≤ 5 * n_test_of n < 2 * n + 5)%nat.
Proof.
  unfold n_test_of, TEST_SIZE, Qceiling, Qfloor. cbn.
  Z.to_euclidean_division_equations. lia.
Qed.

Lemma safe_indexing_Ok {A} (X : list A) indices :
  Forall (λ i, (i < length X)%nat) indices →
  ∃ Xs, safe_indexing X indices = Ok Xs ∧
        Forall2 (λ i x, X !! i = Some x) indices Xs.
Proof.
  induction indices as [|i indices IH]; intros Hall.
  - exists []. by split; [|constructor].
  - apply Forall_cons in Hall as [Hi Hall].
    destruct (IH Hall) as (Xs & Hsafe & Hpair).
    destruct (lookup_lt_is_Some_2 X i Hi) as [x Hx].
    exists (x :: Xs). cbn. unfold getitem. rewrite Hx. cbn. rewrite Hsafe.
    by split; [|constructor].
Qed.

(** With at least two rows, as many labels as rows and a generator that
    returns a permutation of the row indices, the split succeeds: the first
    [n_test] indices of the permutation are held out, the others train. *)
Lemma train_test_split_Ok {A B} w (X : list A) (y : list B) :
  length y = length X → (2 ≤ length X)%nat →
  rng_permutation w (length X) ≡ₚ seq 0 (length X) →
  let ind_test := take (n_test_of (length X)) (rng_permutation w (length X)) in
  let ind_train := drop (n_test_of (length X)) (rng_permutation w (length X)) in
  ∃ X_train X_test y_train y_test,
    train_test_split w X y = Ok (X_train, X_test, y_train, y_test) ∧
    Forall2 (λ i x, X !! i = Some x) ind_train X_train ∧
    Forall2 (λ i x, X !! i = Some x) ind_test X_test ∧
    Forall2 (λ i l, y !! i = Some l) ind_train y_train ∧
    Forall2 (λ i l, y !! i = Some l) ind_test y_test.
Proof.
  intros Hlen Hn Hperm ind_test ind_train.
  pose proof (n_test_of_ceiling (length X)) as Htest.
  assert (length (rng_permutation w (length X)) = length X) as Hplen.
  { by rewrite Hperm, length_seq. }
  assert (Forall (λ i, (i < length X)%nat) (rng_permutation w (length X)))
    as Hrange.
  { rewrite Hperm. apply Forall_seq. lia. }
  assert (take (length X - n_test_of (length X))
            (drop (n_test_of (length X)) (rng_permutation w (length X)))
          = ind_train) as Htrain.
  { apply take_ge. unfold ind_train. rewrite length_drop. lia. }
  assert (Forall (λ i, (i < length X)%nat) ind_train) as Hrtrain.
  { by apply Forall_drop. }
  assert (Forall (λ i, (i < length X)%nat) ind_test) as Hrtest.
  { by apply Forall_take. }
  destruct (safe_indexing_Ok X ind_train Hrtrain) as (X_train & HX1 & HP1).
  destruct (safe_indexing_Ok X ind_test Hrtest) as (X_test & HX2 & HP2).
  rewrite <- Hlen in Hrtrain, Hrtest.
  destruct (safe_indexing_Ok y ind_train Hrtrain) as (y_train & Hy1 & HP3).
  destruct (safe_indexing_Ok y ind_test Hrtest) as (y_test & Hy2 & HP4).
  exists X_train, X_test, y_train, y_test.
  split; [|done].
  unfold train_test_split. rewrite decide_True by done.
  rewrite decide_False by lia. rewrite Htrain.
  fold ind_test. rewrite HX1. cbn. rewrite HX2. cbn. rewrite Hy1. cbn.
  by rewrite Hy2.
Qed.

Lemma train_test_split_too_few {A B} w (X : list A) (y : list B) :
  (length X < 2)%nat → train_test_split w X y = Raise ValueError.
Proof.
  intros Hn. unfold train_test_split. case_decide; [|done].
  pose proof (n_test_of_ceiling (length X)).
  rewrite decide_True; [done|lia].
Qed.

(** C7 (as amended): on at least two rows, with one label per row, the split
    succeeds; the test part holds 0.4 of the rows rounded up and the training
    part the others; the two index lists are disjoint and together are the
    row indices, each once; features and labels are taken at the same
    indices. *)
Theorem train_test_split_partition {A B} w (X : list A) (y : list B) :
  length y = length X → (2 ≤ length X)%nat →
  rng_permutation w (length X) ≡ₚ seq 0 (length X) →
  ∃ ind_train ind_test X_train X_test y_train y_test,
    train_test_split w X y = Ok (X_train, X_test, y_train, y_test) ∧
    (2 * length X ≤ 5 * length ind_test < 2 * length X + 5)%nat ∧
    (length ind_train = length X - length ind_test)%nat ∧
    ind_test ++ ind_train ≡ₚ seq 0 (length X) ∧
    (∀ i, i ∈ ind_train → i ∉ ind_test) ∧
    (∀ i, (i < length X)%nat ↔ i ∈ ind_train ∨ i ∈ ind_test) ∧
    Forall2 (λ i x, X !! i = Some x) ind_train X_train ∧
    Forall2 (λ i l, y !! i = Some l) ind_train y_train ∧
    Forall2 (λ i x, X !! i = Some x) ind_test X_test ∧
    Forall2 (λ i l, y !! i = Some l) ind_test y_test.
Proof.
  intros Hlen Hn Hperm.
  destruct (train_test_split_Ok w X y Hlen Hn Hperm)
    as (X_train & X_test & y_train & y_test & Hsplit & H1 & H2 & H3 & H4).
  pose proof (n_test_of_ceiling (length X)) as Htest.
  set (perm := rng_permutation w (length X)) in *.
  assert (length perm = length X) as Hplen by by rewrite Hperm, length_seq.
  assert (take (n_test_of (length X)) perm ++ drop (n_test_of (length X)) perm
          ≡ₚ seq 0 (length X)) as Hall by by rewrite take_drop.
  assert (NoDup (take (n_test_of (length X)) perm
                 ++ drop (n_test_of (length X)) perm)) as Hnodup.
  { rewrite Hall. apply NoDup_seq. }
  exists (drop (n_test_of (length X)) perm), (take (n_test_of (length X)) perm),
    X_train, X_test, y_train, y_test.
  split; [done|]. rewrite length_take, length_drop, Hplen.
  split; [lia|]. split; [lia|]. split; [done|]. split; [|split; [|done]].
  - intros i Htr Hte. apply NoDup_app in Hnodup as (_ & Hdisj & _).
    by apply (Hdisj i).
  - intros i. transitivity (i ∈ seq 0 (length X)).
    + rewrite elem_of_seq. lia.
    + rewrite <- Hall, elem_of_app. tauto.
Qed.

Lemma train_test_split_partition_witness :
  length [VInt 0; VInt 1; VInt 0; VInt 1; VInt 0] = length [10; 11; 12; 13; 14] ∧
  (2 ≤ length [10; 11; 12; 13; 14])%nat ∧
  rng_permutation sample_world 5 ≡ₚ seq 0 5 ∧
  ∃ parts,
    train_test_split sample_world [10; 11; 12; 13; 14]
      [VInt 0; VInt 1; VInt 0; VInt 1; VInt 0] = Ok parts.
Proof.
  split; [reflexivity|]. split; [cbn; lia|]. split; [reflexivity|].
  destruct (train_test_split_partition sample_world [10; 11; 12; 13; 14]
              [VInt 0; VInt 1; VInt 0; VInt 1; VInt 0])
    as (ind_train & ind_test & X_train & X_test & y_train & y_test & Hsplit & _).
  - reflexivity.
  - cbn. lia.
  - reflexivity.
  - by exists (X_train, X_test, y_train, y_test).
Defined.

(** A single row cannot be split: the training part would be empty, and the
    split raises. *)
Lemma train_test_split_single_row :
  train_test_split sample_world single_row [VInt 0] = Raise ValueError ∧
  ¬ ∃ parts, train_test_split sample_world single_row [VInt 0] = Ok parts.
Proof.
  assert (train_test_split sample_world single_row [VInt 0]
          = Raise ValueError) as H by by vm_compute.
  split; [exact H|]. intros [parts Hparts]. by rewrite H in Hparts.
Qed.

(** ** The reporter *)













(** ** The script *)

Lemma mapM_label_of (values : list value) (labels : list Z) :
  mapM label_of values = Some labels → values = VInt <$> labels.
Proof.
  intros H%mapM_Some. induction H as [|v z values labels Hv _ IH]; [done|].
  destruct v; try done. cbn in Hv. injection Hv as ->. cbn. by rewrite IH.
Qed.

Lemma evaluate_Ok_length labels predictions rates :
  evaluate labels predictions = Ok rates → length labels = length predictions.
Proof.
  unfold evaluate, confusion_matrix. by case_decide.
Qed.

Lemma count_equal_differ y_test predictions :
  length y_test = length predictions →
  count_equal y_test predictions + count_differ y_test predictions
  = Z.of_nat (length y_test).
Proof.
  intros Hlen. unfold count_equal, count_differ.
  rewrite <- Nat2Z.inj_add, <- length_app, filter_app_complement.
  by rewrite length_zip, <- Hlen, Nat.min_id.
Qed.

(** What a completed run went through. *)
Lemma main_Completed w argv printed :
  main w argv = Completed printed →
  ∃ script filename evidence labels X_train X_test y_train y_test predictions
    sensitivity specificity,
    argv = [script; filename] ∧
    load_data w filename = Ok (evidence, labels) ∧
    train_test_split w evidence labels
      = Ok (X_train, X_test, y_train, VInt <$> y_test) ∧
    knn_predict w X_train y_train X_test = Ok predictions ∧
    evaluate y_test predictions = Ok (sensitivity, specificity) ∧
    printed = report y_test predictions sensitivity specificity.
Proof.
  unfold main. case_decide as Hargv; [done|].
  destruct argv as [|script [|filename [|]]]; try done.
  change (default "" ([script; filename] !! 1%nat)) with filename.
  destruct (load_data w filename) as [[evidence labels]|] eqn:Hload; [|by cbn].
  cbn. destruct (train_test_split w evidence labels)
    as [[[[X_train X_test] y_train] y_test_values]|] eqn:Hsplit; [|by cbn].
  cbn. unfold train_model.
  destruct (knn_predict w X_train y_train X_test) as [predictions|] eqn:Hknn;
    [|by cbn].
  cbn. destruct (mapM label_of y_test_values) as [y_test|] eqn:Hlabels; [|by cbn].
  apply mapM_label_of in Hlabels as ->.
  destruct (evaluate y_test predictions) as [[sensitivity specificity]|]
    eqn:Heval; [|by cbn].
  cbn. intros [= <-].
  by exists script, filename, evidence, labels, X_train, X_test, y_train,
    y_test, predictions, sensitivity, specificity.
Qed.

(** C8: with an argument count other than one, the script exits through
    [sys.exit] with the usage message, which goes to standard error; the exit
    status is not 0, nothing is printed, and nothing of the world (the file,
    the generator, the classifier) has a part in the outcome. *)
Theorem main_usage w argv :
  length argv ≠ 2%nat →
  main w argv = SysExit "Usage: python shopping.py data" ∧
  stderr (main w argv) = [Message "Usage: python shopping.py data"] ∧
  stdout (main w argv) = [] ∧
  exit_status (main w argv) ≠ 0 ∧
  ∀ w', main w' argv = main w argv.
Proof.
  intros Hargv.
  assert (∀ w, main w argv = SysExit "Usage: python shopping.py data") as H.
  { intros w0. unfold main. by rewrite decide_True. }
  rewrite !H. repeat split; done.
Qed.

Lemma main_usage_witness :
  length ["shopping.py"] ≠ 2%nat ∧
  main sample_world ["shopping.py"]
  = SysExit "Usage: python shopping.py data".
Proof.
  split; [cbn; lia|].
  apply (main_usage sample_world ["shopping.py"]). cbn. lia.
Defined.




(** * Further properties *)

(** ** transform_df *)

(** X1: the replacement keeps the shape of the table: the same columns, the
    same number of rows, and every row its length; a table with one cell per
    column stays one. *)
Theorem transform_df_shape df :
  columns (transform_df df) = columns df ∧
  length (data (transform_df df)) = length (data df) ∧
  (∀ i row, data df !! i = Some row →
     ∃ row', data (transform_df df) !! i = Some row' ∧
             length row' = length row) ∧
  (well_formed df → well_formed (transform_df df)).
Proof.
  unfold transform_df, well_formed. cbn [columns data].
  split; [done|]. split; [by rewrite length_fmap|]. split.
  - intros i row Hi. eexists. rewrite list_lookup_fmap, Hi.
    split; [done|]. apply length_imap.
  - intros Hwf. apply Forall_fmap. eapply Forall_impl; [exact Hwf|].
    intros row Hrow. unfold compose. by rewrite length_imap.
Qed.

Lemma transform_df_shape_witness :
  well_formed sample_frame ∧ well_formed (transform_df sample_frame).
Proof.
  assert (well_formed sample_frame) as Hwf by (repeat constructor).
  split; [exact Hwf|].
  exact (proj2 (proj2 (proj2 (transform_df_shape sample_frame))) Hwf).
Defined.

Lemma mapping_lookup_None c :
  c ∉ ["Month"; "VisitorType"; "Weekend"; "Revenue"] → mapping !! c = None.
Proof.
  unfold mapping. intros H.
  repeat (apply not_elem_of_cons in H as [? H]).
  by rewrite !lookup_insert_ne, lookup_singleton_ne.
Qed.

(** X2: on any table, a cell of a column other than Month, VisitorType,
    Weekend and Revenue is left as it is, whatever it holds. *)
Theorem transform_df_other_columns df i source j c v :
  data df !! i = Some source →
  columns df !! j = Some c → source !! j = Some v →
  c ∉ ["Month"; "VisitorType"; "Weekend"; "Revenue"] →
  ∃ row, data (transform_df df) !! i = Some row ∧ row !! j = Some v.
Proof.
  intros Hi Hc Hv Hother. eexists.
  split; [by apply transform_df_lookup|].
  rewrite (replaced_lookup _ _ _ _ _ Hc Hv).
  by rewrite replace_cell_unmapped by by apply mapping_lookup_None.
Qed.

Lemma transform_df_other_columns_witness :
  ∃ row, data (transform_df unseen_frame) !! 0%nat = Some row ∧
         row !! 8%nat = Some (VFloat 0).
Proof.
  apply (transform_df_other_columns unseen_frame 0
           (sample_row 0 "Jun" "Guest" false false) 8 "PageValues").
  - reflexivity.
  - reflexivity.
  - reflexivity.
  - intros H. repeat (apply elem_of_cons in H as [[=]|H]).
    by apply elem_of_nil in H.
Defined.







(** ** load_data *)

(** X4: on a valid file the label of a row is 1 if its Revenue is true and 0
    if it is false, and the last element of its evidence is 1 or 0 with its
    Weekend in the same way. *)
Theorem load_data_booleans w filename df i source (weekend revenue : bool) :
  read_csv w filename = Ok df → valid_frame df →
  data df !! i = Some source →
  source !! 16%nat = Some (VBool weekend) →
  source !! 17%nat = Some (VBool revenue) →
  ∃ evidence labels row,
    load_data w filename = Ok (evidence, labels) ∧
    evidence !! i = Some row ∧
    row !! 16%nat = Some (VInt (if weekend then 1 else 0)) ∧
    labels !! i = Some (VInt (if revenue then 1 else 0)).
Proof.
  intros Hread [Hcols Hrows] Hi Hweekend Hrevenue. eexists _, _, _.
  split; [by apply load_data_header|].
  rewrite !list_lookup_fmap, Hi. split; [done|]. split.
  - rewrite (evidence_cell w df source 16 "Weekend" (VBool weekend))
      by (done || lia || by rewrite Hcols).
    rewrite (replace_cell_bool df i source 16 "Weekend" weekend) by auto.
    by destruct weekend.
  - rewrite list_lookup_fmap, Hi. cbn.
    rewrite (label_cell w df source _ Hcols Hrevenue).
    rewrite (replace_cell_bool df i source 17 "Revenue" revenue) by auto.
    by destruct revenue.
Qed.

Lemma load_data_booleans_witness :
  read_csv sample_world "shopping.csv" = Ok sample_frame ∧
  valid_frame sample_frame ∧
  ∃ evidence labels row,
    load_data sample_world "shopping.csv" = Ok (evidence, labels) ∧
    evidence !! 1%nat = Some row ∧
    row !! 16%nat = Some (VInt 1) ∧
    labels !! 1%nat = Some (VInt 1).
Proof.
  assert (valid_frame sample_frame) as Hvalid.
  { split; [reflexivity|]. repeat constructor. }
  split; [reflexivity|]. split; [exact Hvalid|].
  exact (load_data_booleans sample_world "shopping.csv" sample_frame 1
           (sample_row 50 "June" "Other" true true) true true
           eq_refl Hvalid eq_refl eq_refl eq_refl).
Defined.

(** X5: the label is the last column and the evidence all the others,
    whatever the columns are called and however many there are: on any table
    with at least one column and one cell per column the loader succeeds with
    one label per row, the last cell of the replaced row; with two columns or
    more there is one evidence row per row, the cells before the last, and
    with the label column alone the evidence is the empty list. *)
Theorem load_data_last_column w filename df :
  read_csv w filename = Ok df → well_formed df → columns df ≠ [] →
  ∃ evidence labels,
    load_data w filename = Ok (evidence, labels) ∧
    length labels = length (data df) ∧
    (length (columns df) = 1%nat → evidence = []) ∧
    ((2 ≤ length (columns df))%nat → length evidence = length (data df)) ∧
    ∀ i source, data df !! i = Some source →
      ∃ cells cell,
        data (transform_df df) !! i = Some (cells ++ [cell]) ∧
        labels !! i = Some (json_scalar w cell) ∧
        ((2 ≤ length (columns df))%nat →
           evidence !! i = Some (json_scalar w <$> cells)).
Proof.
  intros Hread Hwf Hcols. unfold load_data. rewrite Hread. cbn.
  unfold iloc_last, dataframe_to_list_of_lists, series_to_list,
    iloc_all_but_last. cbn [columns data].
  change (columns (transform_df df)) with (columns df).
  destruct (columns df) as [|c cols] eqn:Hc; [done|]. cbn [length pred].
  eexists _, _. split; [reflexivity|].
  split; [by rewrite !length_fmap, length_transform_df|].
  split; [by destruct cols|].
  split.
  { destruct cols; [cbn; lia|]. intros _. cbn [length take].
    by rewrite !length_fmap, length_transform_df. }
  intros i source Hi.
  pose proof (transform_df_lookup df i source Hi) as Hrow.
  assert (length (imap (replace_at df) source) = S (length cols)) as Hlen.
  { rewrite length_imap. unfold well_formed in Hwf.
    rewrite Forall_lookup in Hwf. rewrite (Hwf i source Hi), Hc. done. }
  destruct (imap (replace_at df) source) as [|x xs _] using rev_ind; [done|].
  rewrite length_app in Hlen. cbn in Hlen.
  assert (length xs = length cols) as Hxs by lia.
  exists xs, x. split; [exact Hrow|].
  rewrite !list_lookup_fmap, Hrow. cbn [fmap option_fmap option_map].
  rewrite <- Hxs, (lookup_app_r xs [x] (length xs)) by lia.
  rewrite Nat.sub_diag. split; [done|].
  intros Hmany. destruct cols as [|c' cols]; [cbn in Hxs; lia|].
  rewrite Hxs at 1. cbn [length take].
  rewrite !list_lookup_fmap, Hrow. cbn.
  by rewrite take_app_length.
Qed.

Lemma load_data_last_column_witness :
  read_csv label_only_world "shopping.csv" = Ok label_only_frame ∧
  well_formed label_only_frame ∧ columns label_only_frame ≠ [] ∧
  ∃ labels,
    load_data label_only_world "shopping.csv" = Ok ([], labels) ∧
    length labels = 3%nat.
Proof.
  assert (well_formed label_only_frame) as Hwf by (repeat constructor).
  split; [reflexivity|]. split; [exact Hwf|]. split; [done|].
  destruct (load_data_last_column label_only_world "shopping.csv"
              label_only_frame eq_refl Hwf)
    as (evidence & labels & Hload & Hlabels & Hevidence & _); [done|].
  exists labels. by rewrite <- (Hevidence eq_refl).
Defined.

(** X6: what [read_csv] raises, the loader raises, and the script ends on it:
    nothing is printed and the exit status is 1. *)
Theorem read_csv_failure w script filename e :
  read_csv w filename = Raise e →
  load_data w filename = Raise e ∧
  main w [script; filename] = Uncaught e ∧
  stdout (main w [script; filename]) = [] ∧
  stderr (main w [script; filename]) = [Traceback e] ∧
  exit_status (main w [script; filename]) = 1.
Proof.
  intros Hread.
  assert (load_data w filename = Raise e) as Hload.
  { unfold load_data. by rewrite Hread. }
  assert (main w [script; filename] = Uncaught e) as Hmain.
  { unfold main. rewrite decide_False by (cbn; lia).
    change (default "" ([script; filename] !! 1%nat)) with filename.
    by rewrite Hload. }
  by rewrite Hmain.
Qed.

Lemma read_csv_failure_witness :
  read_csv missing_world "shopping.csv" = Raise FileNotFoundError ∧
  main missing_world ["shopping.py"; "shopping.csv"]
  = Uncaught FileNotFoundError.
Proof.
  split; [reflexivity|].
  apply (read_csv_failure missing_world "shopping.py" "shopping.csv").
  reflexivity.
Defined.

(** ** main *)

(** X7: a data file with the eighteen columns and fewer than two rows cannot
    be split: the script ends on the ValueError of the split, having printed
    nothing. *)
Theorem main_too_few_rows w script filename df :
  read_csv w filename = Ok df → columns df = header →
  (length (data df) < 2)%nat →
  main w [script; filename] = Uncaught ValueError ∧
  stdout (main w [script; filename]) = [] ∧
  exit_status (main w [script; filename]) = 1.
Proof.
  intros Hread Hcols Hrows.
  assert (main w [script; filename] = Uncaught ValueError) as Hmain.
  { unfold main. rewrite decide_False by (cbn; lia).
    change (default "" ([script; filename] !! 1%nat)) with filename.
    rewrite (load_data_header w filename df Hread Hcols). cbn.
    rewrite train_test_split_too_few; [done|]. by rewrite length_fmap. }
  by rewrite Hmain.
Qed.

Lemma main_too_few_rows_witness :
  read_csv lone_world "shopping.csv" = Ok lone_frame ∧
  columns lone_frame = header ∧
  (length (data lone_frame) < 2)%nat ∧
  main lone_world ["shopping.py"; "shopping.csv"] = Uncaught ValueError.
Proof.
  split; [reflexivity|]. split; [reflexivity|]. split; [cbn; lia|].
  apply (main_too_few_rows lone_world "shopping.py" "shopping.csv"
           lone_frame); [reflexivity|reflexivity|cbn; lia].
Defined.

Lemma safe_indexing_length {A} (X : list A) indices Xs :
  safe_indexing X indices = Ok Xs → length Xs = length indices.
Proof.
  revert Xs. induction indices as [|i indices IH]; intros Xs.
  - by intros [= <-].
  - cbn. destruct (getitem X i) as [x|]; [|done]. cbn.
    destruct (safe_indexing X indices) as [xs|]; [|done]. cbn.
    intros [= <-]. cbn. by rewrite (IH xs).
Qed.

(** A split that succeeds was given some rows. *)
Lemma train_test_split_nonempty {A B} w (X : list A) (y : list B)
    X_train X_test y_train y_test :
  train_test_split w X y = Ok (X_train, X_test, y_train, y_test) → X ≠ [].
Proof.
  intros Hsplit ->. unfold train_test_split in Hsplit.
  case_decide; [|done]. by rewrite decide_True in Hsplit.
Qed.

(** The sizes of the four parts of a split that succeeds, when the generator
    returns as many indices as there are rows. *)
Lemma train_test_split_lengths {A B} w (X : list A) (y : list B)
    X_train X_test y_train y_test :
  length (rng_permutation w (length X)) = length X →
  train_test_split w X y = Ok (X_train, X_test, y_train, y_test) →
  (2 ≤ length X)%nat ∧ length y = length X ∧
  length X_test = n_test_of (length X) ∧
  length y_test = n_test_of (length X) ∧
  length X_train = (length X - n_test_of (length X))%nat ∧
  length y_train = (length X - n_test_of (length X))%nat.
Proof.
  intros Hperm. unfold train_test_split.
  case_decide as Hlen; [|done]. case_decide as Htrain; [done|].
  pose proof (n_test_of_ceiling (length X)) as Hceil.
  set (ind_test := take (n_test_of (length X)) _).
  set (ind_train := take (length X - n_test_of (length X)) _).
  assert (length ind_test = n_test_of (length X)) as Htest.
  { unfold ind_test. rewrite length_take. lia. }
  assert (length ind_train = (length X - n_test_of (length X))%nat) as Htr.
  { unfold ind_train. rewrite length_take, length_drop. lia. }
  destruct (safe_indexing X ind_train) as [X1|] eqn:H1; [|by cbn]. cbn.
  destruct (safe_indexing X ind_test) as [X2|] eqn:H2; [|by cbn]. cbn.
  destruct (safe_indexing y ind_train) as [y1|] eqn:H3; [|by cbn]. cbn.
  destruct (safe_indexing y ind_test) as [y2|] eqn:H4; [|by cbn]. cbn.
  intros [= <- <- <- <-].
  apply safe_indexing_length in H1, H2, H3, H4. lia.
Qed.

(** X8: a run that completes was given at least two rows, and the two counts
    it prints add up to the number of held-out rows, 0.4 of the rows of the
    file rounded up. *)
Theorem main_counts w script filename df printed :
  read_csv w filename = Ok df →
  length (rng_permutation w (length (data df))) = length (data df) →
  main w [script; filename] = Completed printed →
  ∃ correct incorrect tpr tnr,
    printed = ["Correct: " +:+ pretty correct;
               "Incorrect: " +:+ pretty incorrect; tpr; tnr] ∧
    0 ≤ correct ∧ 0 ≤ incorrect ∧
    correct + incorrect = Z.of_nat (n_test_of (length (data df))) ∧
    (2 ≤ length (data df))%nat ∧
    (2 * length (data df) ≤ 5 * n_test_of (length (data df))
       < 2 * length (data df) + 5)%nat.
Proof.
  intros Hread Hperm
    (script' & filename' & evidence & labels & X_train & X_test & y_train
     & y_test & predictions & sensitivity & specificity
     & [= <- <-] & Hload & Hsplit & Hknn & Heval & ->)%main_Completed.
  assert (length evidence = length (data df)) as Hrows.
  { pose proof (train_test_split_nonempty _ _ _ _ _ _ _ Hsplit) as Hsome.
    unfold load_data in Hload. rewrite Hread in Hload. cbn in Hload.
    destruct (iloc_last _); [|done]. cbn in Hload.
    injection Hload as <- <-. revert Hsome.
    unfold dataframe_to_list_of_lists, iloc_all_but_last, transform_df.
    cbn [columns data]. destruct (take _ (columns df)); [done|].
    by rewrite !length_fmap. }
  rewrite <- Hrows in Hperm |- *.
  destruct (train_test_split_lengths _ _ _ _ _ _ _ Hperm Hsplit)
    as (Hn & _ & _ & Htest & _).
  rewrite length_fmap in Htest.
  pose proof (evaluate_Ok_length _ _ _ Heval) as Hlen.
  exists (count_equal y_test predictions), (count_differ y_test predictions).
  eexists _, _. split; [reflexivity|].
  split; [unfold count_equal; lia|]. split; [unfold count_differ; lia|].
  split; [by rewrite count_equal_differ, Htest|].
  split; [done|]. apply n_test_of_ceiling.
Qed.

Lemma main_counts_witness :
  read_csv sample_world "shopping.csv" = Ok sample_frame ∧
  main sample_world ["shopping.py"; "shopping.csv"]
  = Completed ["Correct: 2"; "Incorrect: 0"; "True Positive Rate: 100.00%";
               "True Negative Rate: 100.00%"] ∧
  ∃ correct incorrect,
    correct + incorrect = Z.of_nat (n_test_of 5) ∧
    (2 * 5 ≤ 5 * n_test_of 5 < 2 * 5 + 5)%nat.
Proof.
  assert (main sample_world ["shopping.py"; "shopping.csv"]
          = Completed ["Correct: 2"; "Incorrect: 0";
                       "True Positive Rate: 100.00%";
                       "True Negative Rate: 100.00%"]) as Hrun
    by by vm_compute.
  split; [reflexivity|]. split; [exact Hrun|].
  destruct (main_counts sample_world "shopping.py" "shopping.csv"
              sample_frame _ eq_refl eq_refl Hrun)
    as (correct & incorrect & _ & _ & _ & _ & _ & Hsum & _ & Hceil).
  by exists correct, incorrect.
Defined.

(** ** evaluate *)

Lemma count_equal_cons x y labels predictions :
  count_equal (x :: labels) (y :: predictions)
  = (if decide (x = y) then 1 else 0) + count_equal labels predictions.
Proof.
  unfold count_equal. cbn [zip zip_with]. rewrite filter_cons. cbn [fst snd].
  case_decide; cbn [length]; lia.
Qed.

Lemma count_differ_cons x y labels predictions :
  count_differ (x :: labels) (y :: predictions)
  = (if decide (x = y) then 0 else 1) + count_differ labels predictions.
Proof.
  unfold count_differ. cbn [zip zip_with]. rewrite filter_cons. cbn [fst snd].
  repeat case_decide; cbn [length]; try done; lia.
Qed.

(** X9: on 0/1 labels and predictions of one length, the four entries of the
    confusion matrix add up to the number of samples, the count printed as
    Correct is TN + TP and the count printed as Incorrect is FP + FN. *)
Theorem confusion_counts labels predictions :
  length labels = length predictions →
  binary labels → binary predictions →
  true_negatives labels predictions + false_positives labels predictions
  + false_negatives labels predictions + true_positives labels predictions
  = Z.of_nat (length labels) ∧
  count_equal labels predictions
  = true_negatives labels predictions + true_positives labels predictions ∧
  count_differ labels predictions
  = false_positives labels predictions + false_negatives labels predictions.
Proof.
  unfold true_negatives, false_positives, false_negatives, true_positives.
  revert predictions.
  induction labels as [|x labels IH]; intros [|y predictions] Hlen Hl Hp;
    try done.
  apply Forall_cons in Hl as [Hx Hl]. apply Forall_cons in Hp as [Hy Hp].
  injection Hlen as Hlen. destruct (IH predictions Hlen Hl Hp) as (H1 & H2 & H3).
  rewrite !count_pairs_cons, count_equal_cons, count_differ_cons.
  cbn [length]. rewrite Nat2Z.inj_succ.
  destruct Hx as [-> | ->], Hy as [-> | ->];
    repeat case_decide; try congruence; lia.
Qed.

Lemma confusion_counts_witness :
  length [1; 1; 0; 0] = length [1; 0; 0; 1] ∧
  count_equal [1; 1; 0; 0] [1; 0; 0; 1]
  = true_negatives [1; 1; 0; 0] [1; 0; 0; 1]
    + true_positives [1; 1; 0; 0] [1; 0; 0; 1].
Proof.
  split; [reflexivity|].
  apply (confusion_counts [1; 1; 0; 0] [1; 0; 0; 1]).
  - reflexivity.
  - solve_binary.
  - solve_binary.
Defined.

Lemma insert_label_comm x y l :
  insert_label x (insert_label y l) = insert_label y (insert_label x l).
Proof.
  induction l as [|z l IH]; cbn.
  - repeat case_decide; try done; try lia. by subst.
  - repeat (case_decide; cbn); try done; try lia; congruence.
Qed.

(** The list of labels does not depend on the order of the samples. *)
Lemma unique_labels_Permutation l l' :
  l ≡ₚ l' → unique_labels l = unique_labels l'.
Proof.
  unfold unique_labels. induction 1 as [|x l l' _ IH|x y l|l l' l'' _ IH1 _ IH2].
  - done.
  - cbn. by rewrite IH.
  - cbn. apply insert_label_comm.
  - by rewrite IH1.
Qed.

Lemma count_pairs_Permutation labels predictions labels' predictions' a b :
  zip labels predictions ≡ₚ zip labels' predictions' →
  count_pairs labels predictions a b = count_pairs labels' predictions' a b.
Proof. intros Hperm. unfold count_pairs. by rewrite Hperm. Qed.

(** X10: the rates do not depend on the order of the samples: two runs of
    [evaluate] on the same (label, prediction) pairs in different orders
    return the same. *)
Theorem evaluate_order_independent labels predictions labels' predictions' :
  length labels = length predictions →
  length labels' = length predictions' →
  zip labels predictions ≡ₚ zip labels' predictions' →
  confusion_matrix labels predictions = confusion_matrix labels' predictions' ∧
  evaluate labels predictions = evaluate labels' predictions'.
Proof.
  intros Hlen Hlen' Hperm.
  assert (labels ≡ₚ labels') as Hl.
  { rewrite <- (fst_zip labels predictions), <- (fst_zip labels' predictions')
      by lia. by rewrite Hperm. }
  assert (predictions ≡ₚ predictions') as Hp.
  { rewrite <- (snd_zip labels predictions), <- (snd_zip labels' predictions')
      by lia. by rewrite Hperm. }
  assert (confusion_matrix labels predictions
          = confusion_matrix labels' predictions') as Hcm.
  { assert (labels = [] ↔ labels' = []) as Hnil.
    { apply Permutation_length in Hl. by destruct labels, labels'. }
    assert (Forall int64 (labels ++ predictions)
            ↔ Forall int64 (labels' ++ predictions')) as Hrange
      by by rewrite Hl, Hp.
    unfold confusion_matrix. rewrite !decide_True by done.
    rewrite (unique_labels_Permutation (labels ++ predictions)
               (labels' ++ predictions')) by by rewrite Hl, Hp.
    repeat case_decide; try tauto. f_equal.
    apply list_fmap_ext. intros _ a _. apply list_fmap_ext. intros _ b _.
    by apply count_pairs_Permutation. }
  split; [exact Hcm|]. unfold evaluate. by rewrite Hcm.
Qed.

Lemma evaluate_order_independent_witness :
  length [1; 1; 0; 0] = length [1; 0; 0; 1] ∧
  length [1; 1; 0; 0] = length [0; 1; 0; 1] ∧
  zip [1; 1; 0; 0] [1; 0; 0; 1] ≡ₚ zip [1; 1; 0; 0] [0; 1; 0; 1] ∧
  evaluate [1; 1; 0; 0] [1; 0; 0; 1] = evaluate [1; 1; 0; 0] [0; 1; 0; 1].
Proof.
  assert (zip [1; 1; 0; 0] [1; 0; 0; 1] ≡ₚ zip [1; 1; 0; 0] [0; 1; 0; 1])
    as Hperm by apply Permutation_swap.
  split; [reflexivity|]. split; [reflexivity|]. split; [exact Hperm|].
  by apply (evaluate_order_independent [1; 1; 0; 0] [1; 0; 0; 1]
              [1; 1; 0; 0] [0; 1; 0; 1]).
Defined.

Lemma unique_labels_two a b l :
  a < b → Forall (λ x, x = a ∨ x = b) l →
  unique_labels l =
    (if decide (a ∈ l) then [a] else []) ++ (if decide (b ∈ l) then [b] else []).
Proof.
  intros Hab. induction l as [|x l IH]; [done|].
  intros [Hx Hl]%Forall_cons. cbn [unique_labels foldr].
  fold (unique_labels l). rewrite (IH Hl).
  destruct Hx as [-> | ->];
    repeat (case_decide; cbn); try done; try lia; set_solver by lia.
Qed.

(** X11: with any two [int64] labels a < b in place of 0 and 1, [evaluate]
    takes the larger one for the positive class: the first rate it returns is
    the IEEE-754 quotient of the number of samples labelled b and predicted b
    by the number of samples labelled b, the second that of the samples
    labelled a and predicted a by the samples labelled a. *)
Theorem evaluate_two_labels a b labels predictions :
  a < b → int64 a → int64 b →
  length labels = length predictions →
  Z.of_nat (length labels) < 2 ^ 63 →
  Forall (λ x, x = a ∨ x = b) labels →
  Forall (λ x, x = a ∨ x = b) predictions →
  a ∈ labels ++ predictions → b ∈ labels ++ predictions →
  ∃ first_rate second_rate,
    evaluate labels predictions = Ok (first_rate, second_rate) ∧
    Prim2SF first_rate
    = ieee_quotient (samples labels predictions b b)
        (samples labels predictions b b + samples labels predictions b a) ∧
    Prim2SF second_rate
    = ieee_quotient (samples labels predictions a a)
        (samples labels predictions a a + samples labels predictions a b).
Proof.
  intros Hab Ha64 Hb64 Hlen Hsize Hl Hp Ha Hb. eexists _, _. split.
  { unfold evaluate, confusion_matrix.
    rewrite decide_True by done.
    rewrite decide_False by by eapply occurs_nonempty.
    rewrite decide_True.
    2:{ apply Forall_app. split; (eapply Forall_impl; [eassumption|]);
          by intros x [-> | ->]. }
    rewrite (unique_labels_two a b) by (done || by apply Forall_app).
    by rewrite !decide_True. }
  apply (rates_ieee a b); [done..|lia].
Qed.

Lemma evaluate_two_labels_witness :
  let labels := [7; 7; 7; 7; 3; 3; 3; 3] in
  let predictions := [7; 7; 7; 3; 3; 7; 7; 7] in
  3 < 7 ∧ length labels = length predictions ∧
  ∃ first_rate second_rate,
    evaluate labels predictions = Ok (first_rate, second_rate) ∧
    first_rate = 0.75%float ∧ second_rate = 0.25%float.
Proof.
  intros labels predictions.
  split; [lia|]. split; [reflexivity|].
  destruct (evaluate_two_labels 3 7 labels predictions)
    as (first_rate & second_rate & Heval & Hfirst & Hsecond).
  - lia.
  - unfold int64. lia.
  - unfold int64. lia.
  - reflexivity.
  - reflexivity.
  - repeat (constructor; [auto|]); constructor.
  - repeat (constructor; [auto|]); constructor.
  - set_solver.
  - set_solver.
  - exists first_rate, second_rate.
    split; [exact Heval|]. split; by apply Prim2SF_inj.
Defined.

Lemma unique_labels_one c l :
  Forall (λ x, x = c) l →
  unique_labels l = match l with [] => [] | _ => [c] end.
Proof.
  induction l as [|x l IH]; [done|].
  intros [-> Hl]%Forall_cons. cbn [unique_labels foldr].
  fold (unique_labels l). rewrite (IH Hl).
  destruct l; cbn; repeat case_decide; try done; lia.
Qed.

(** X12: what makes [evaluate] fail: lists of different lengths and empty
    lists are refused with a ValueError, and when a single [int64] label
    occurs among all the labels and predictions the confusion matrix has one
    row, and reading its second row raises an IndexError. *)
Theorem evaluate_errors :
  (∀ labels predictions,
     length labels ≠ length predictions →
     evaluate labels predictions = Raise ValueError) ∧
  evaluate [] [] = Raise ValueError ∧
  (∀ c labels predictions,
     int64 c → labels ≠ [] → length labels = length predictions →
     Forall (λ x, x = c) (labels ++ predictions) →
     evaluate labels predictions = Raise IndexError).
Proof.
  split; [apply evaluate_length_mismatch|]. split; [reflexivity|].
  intros c labels predictions Hc Hsome Hlen Hall.
  unfold evaluate, confusion_matrix.
  rewrite decide_True by done. rewrite decide_False by done.
  rewrite decide_True by (eapply Forall_impl; [exact Hall|]; by intros x ->).
  rewrite (unique_labels_one c _ Hall).
  destruct labels; [done|]. reflexivity.
Qed.

Lemma evaluate_errors_witness :
  length [0; 0; 0] ≠ length [0; 0] ∧
  evaluate [0; 0; 0] [0; 0] = Raise ValueError ∧
  length [0; 0] = length [0; 0] ∧
  evaluate [0; 0] [0; 0] = Raise IndexError.
Proof.
  destruct evaluate_errors as (Hmismatch & _ & Hone).
  split; [cbn; lia|]. split; [apply Hmismatch; cbn; lia|].
  split; [reflexivity|].
  apply (Hone 0); [unfold int64; lia|done|reflexivity|]. repeat constructor.
Defined.

(** ** The reporter's rounding *)




(** ** A run on a valid file *)

Lemma evaluate_missing_class labels predictions :
  length labels = length predictions → labels ≠ [] →
  binary labels → binary predictions →
  ¬ (0 ∈ labels ++ predictions ∧ 1 ∈ labels ++ predictions) →
  evaluate labels predictions = Raise IndexError.
Proof.
  intros Hlen Hsome Hl Hp Hmiss. unfold evaluate, confusion_matrix.
  rewrite decide_True by done. rewrite decide_False by done.
  rewrite decide_True by by apply binary_int64, Forall_app.
  rewrite unique_labels_binary by by apply Forall_app.
  repeat case_decide; by try tauto.
Qed.

Lemma typed_labels_binary (values : list value) :
  Forall (has_type label_type) values →
  ∃ labels, values = VInt <$> labels ∧ binary labels.
Proof.
  induction 1 as [|v values Hv _ (labels & -> & Hlabels)].
  { exists []. split; [done|constructor]. }
  destruct v as [z| | | |]; try done.
  exists (z :: labels). split; [done|].
  constructor; [|done]. unfold label_type in Hv. cbn in Hv. lia.
Qed.

Lemma mapM_label_of_ints (labels : list Z) :
  mapM label_of (VInt <$> labels) = Some labels.
Proof.
  apply mapM_Some. induction labels; by constructor.
Qed.

Lemma Forall_selected {A} (P : A → Prop) (l : list A) indices selected :
  Forall P l →
  Forall2 (λ i x, l !! i = Some x) indices selected →
  Forall P selected.
Proof.
  intros Hl. rewrite Forall_lookup in Hl.
  induction 1 as [|i x indices selected Hi _ IH]; constructor; eauto.
Qed.

(** X14: on a file with the eighteen columns, cells of the expected kinds
    and at least two rows, the load and the split succeed, the held-out
    labels are 0/1 integers, and once the classifier has answered with one
    0/1 prediction per held-out row the run has two possible ends: the
    four-line report if both classes occur among the held-out labels and the
    predictions, an uncaught IndexError if one class is missing. *)
Theorem main_valid_file w script filename df :
  read_csv w filename = Ok df → typed_frame df →
  (2 ≤ length (data df))%nat →
  rng_permutation w (length (data df)) ≡ₚ seq 0 (length (data df)) →
  ∃ evidence labels X_train X_test y_train y_test,
    load_data w filename = Ok (evidence, labels) ∧
    train_test_split w evidence labels
      = Ok (X_train, X_test, y_train, VInt <$> y_test) ∧
    binary y_test ∧
    length y_test = n_test_of (length (data df)) ∧
    ∀ predictions,
      knn_predict w X_train y_train X_test = Ok predictions →
      length predictions = length y_test → binary predictions →
      main w [script; filename] =
        if decide (0 ∈ y_test ++ predictions ∧ 1 ∈ y_test ++ predictions)
        then Completed
               (report y_test predictions
                  (np_true_divide (true_positives y_test predictions)
                     (true_positives y_test predictions
                      + false_negatives y_test predictions))
                  (np_true_divide (true_negatives y_test predictions)
                     (true_negatives y_test predictions
                      + false_positives y_test predictions)))
        else Uncaught IndexError.
Proof.
  intros Hread [Hcols Hrows] Hn Hperm.
  pose proof (load_data_header w filename df Hread Hcols) as Hload.
  set (evidence := (λ row, _) <$> data df) in Hload.
  set (labels := (λ row, _) <$> data df) in Hload.
  assert (length evidence = length (data df)) as Hlen_ev
    by apply length_fmap.
  assert (length labels = length evidence) as Hlen
    by by rewrite Hlen_ev; apply length_fmap.
  assert (Forall (has_type label_type) labels) as Htyped.
  { rewrite Forall_lookup in Hrows. apply Forall_lookup. intros i label.
    unfold labels. rewrite list_lookup_fmap.
    destruct (data df !! i) as [source|] eqn:Hi; [|done].
    intros [= <-]. by apply (typed_row_types w df i), (Hrows i). }
  rewrite <- Hlen_ev in Hn, Hperm.
  destruct (train_test_split_Ok w evidence labels Hlen Hn Hperm)
    as (X_train & X_test & y_train & held_out & Hsplit & _ & _ & _ & Htest).
  destruct (typed_labels_binary held_out) as (y_test & -> & Hbinary).
  { eapply Forall_selected; [exact Htyped|exact Htest]. }
  exists evidence, labels, X_train, X_test, y_train, y_test.
  assert (length y_test = n_test_of (length (data df))) as Hheld.
  { apply Forall2_length in Htest. rewrite length_fmap in Htest.
    rewrite <- Htest, length_take, (Permutation_length Hperm), length_seq.
    pose proof (n_test_of_ceiling (length evidence)). rewrite <- Hlen_ev. lia. }
  assert (y_test ≠ []) as Hsome.
  { intros ->. pose proof (n_test_of_ceiling (length (data df))).
    cbn [length] in Hheld. lia. }
  split; [exact Hload|]. split; [exact Hsplit|]. split; [exact Hbinary|].
  split; [exact Hheld|].
  intros predictions Hknn Hpred Hbin. unfold main.
  rewrite decide_False by (cbn; lia).
  change (default "" ([script; filename] !! 1%nat)) with filename.
  rewrite Hload. cbn. rewrite Hsplit. cbn. unfold train_model.
  rewrite Hknn. cbn. rewrite mapM_label_of_ints.
  case_decide as Hboth.
  - destruct Hboth as [H0 H1].
    by rewrite (evaluate_binary _ _ (eq_sym Hpred) Hbinary Hbin H0 H1).
  - by rewrite (evaluate_missing_class _ _ (eq_sym Hpred) Hsome Hbinary Hbin
                  Hboth).
Qed.

Lemma main_valid_file_witness :
  read_csv sample_world "shopping.csv" = Ok sample_frame ∧
  typed_frame sample_frame ∧
  (2 ≤ length (data sample_frame))%nat ∧
  ∃ evidence labels X_train X_test y_train y_test,
    load_data sample_world "shopping.csv" = Ok (evidence, labels) ∧
    train_test_split sample_world evidence labels
      = Ok (X_train, X_test, y_train, VInt <$> y_test) ∧
    binary y_test ∧ length y_test = 2%nat.
Proof.
  assert (typed_frame sample_frame) as Htyped.
  { split; [reflexivity|]. unfold sample_frame, sample_row. cbn [data].
    repeat (constructor; [repeat (constructor; [solve_cell|]); constructor|]).
    constructor. }
  split; [reflexivity|]. split; [exact Htyped|]. split; [cbn; lia|].
  destruct (main_valid_file sample_world "shopping.py" "shopping.csv"
              sample_frame eq_refl Htyped)
    as (evidence & labels & X_train & X_test & y_train & y_test
        & Hload & Hsplit & Hbinary & Hlength & _).
  { cbn. lia. }
  { reflexivity. }
  by exists evidence, labels, X_train, X_test, y_train, y_test.
Defined.
